(** * Model lifecycle of the translation services

    A shallow embedding of the two services of the repository,
    [huggingface-mt-service/main.py] and [bergamot-service/main.py]:
    pair resolution, the process-wide model cache and its loader, the
    start-up preloader and batch translation, with the properties their
    specification states about them.

    Python values are modelled as follows: [str] as [string] (a sequence
    of bytes), [dict] as [gmap], [set] as a list searched with [in],
    [list] as [list], [Optional[_]] as [option], a raised exception as the
    [Raise] branch of [result], a raised [HTTPException] as the
    [HTTPException] branch of [http].  The module-level mutable globals
    ([loaded_models], [loaded_translators]) are fields of an explicit
    state threaded through every function, together with the outside
    world and the list of events of the run.

    Left out: wall-clock readings ([time.time()], [latency_ms], elapsed
    times in log messages), which are floating point; request validation
    by the schema classes, CORS and the liveness endpoints, which run
    outside the functions modelled here. *)

From Stdlib Require Import Ascii String.
From stdpp Require Import gmap strings list fin_maps.

Open Scope string_scope.
Open Scope list_scope.

(** ** Python string operations used by the services *)

Module Py.

(** The f-string [f"{a}-{b}"]. *)
Definition dash (a b : string) : string := a +:+ "-" +:+ b.

(** [c.isspace()] on the ASCII range, as [str.strip()] uses it. *)
Definition isspace (c : ascii) : bool :=
  let n := nat_of_ascii c in
  (n =? 32)%nat || ((9 <=? n)%nat && (n <=? 13)%nat)
  || ((28 <=? n)%nat && (n <=? 31)%nat).

Fixpoint lstrip (s : string) : string :=
  match s with
  | String c s' => if isspace c then lstrip s' else s
  | EmptyString => EmptyString
  end.

(** [rstrip] drops the trailing run of white space. *)
Fixpoint rstrip (s : string) : string :=
  match s with
  | EmptyString => EmptyString
  | String c s' =>
      match rstrip s' with
      | EmptyString => if isspace c then EmptyString else String c EmptyString
      | r => String c r
      end
  end.

Definition strip (s : string) : string := rstrip (lstrip s).

(** [s.split(sep)] for a one-character separator: never empty, an empty
    string gives [[""]]. *)
Fixpoint split (sep : ascii) (s : string) : list string :=
  match s with
  | EmptyString => [EmptyString]
  | String c s' =>
      if Ascii.eqb c sep then EmptyString :: split sep s'
      else match split sep s' with
           | w :: ws => String c w :: ws
           | [] => [String c EmptyString]
           end
  end.

(** [sep in s] for a one-character separator. *)
Fixpoint contains (sep : ascii) (s : string) : bool :=
  match s with
  | EmptyString => false
  | String c s' => Ascii.eqb c sep || contains sep s'
  end.

(** [s.split(sep, 1)] when [sep in s]: the parts before and after the
    first separator; [None] when the separator does not occur (the
    unpacking [a, b = s.split(sep, 1)] would raise). *)
Fixpoint split_once (sep : ascii) (s : string) : option (string * string) :=
  match s with
  | EmptyString => None
  | String c s' =>
      if Ascii.eqb c sep then Some (EmptyString, s')
      else match split_once sep s' with
           | Some (a, b) => Some (String c a, b)
           | None => None
           end
  end.

(** [x in xs] for a collection of strings. *)
Definition mem (x : string) (xs : list string) : bool :=
  existsb (String.eqb x) xs.

(** [s.endswith(suffix)]. *)
Definition endswith (s suffix : string) : bool :=
  let n := String.length s in
  let k := String.length suffix in
  (k <=? n)%nat && String.eqb (substring (n - k) k s) suffix.

(** Truthiness of a [str]: non-empty. *)
Definition truthy (s : string) : bool :=
  match s with EmptyString => false | _ => true end.

End Py.

(** ** Outcomes of calls and of request handlers *)

(** The outcome of a Python call: a value, or a raised [Exception] with
    its message ([str(e)]). *)
Inductive result (A : Type) : Type :=
| Ok (a : A)
| Raise (e : string).
Arguments Ok {A} a.
Arguments Raise {A} e.

(** The outcome of a request handler: the response model, or a raised
    [HTTPException(status_code, detail)]. *)
Inductive http (A : Type) : Type :=
| Response (a : A)
| HTTPException (status_code : nat) (detail : string).
Arguments Response {A} a.
Arguments HTTPException {A} status_code detail.

(** ** Computations over the module globals

    [M S A] is a computation over the globals [S] that returns an [A] or
    raises; what was done before the exception stays done. *)

Definition M (S A : Type) : Type := S -> result A * S.

Definition ret {S A} (a : A) : M S A := fun s => (Ok a, s).

Definition bind {S A B} (m : M S A) (f : A -> M S B) : M S B :=
  fun s => match m s with
           | (Ok a, s') => f a s'
           | (Raise e, s') => (Raise e, s')
           end.

(** [try: m  except Exception as e: handler(e)]. *)
Definition try_except {S A} (m : M S A) (handler : string -> M S A) : M S A :=
  fun s => match m s with
           | (Ok a, s') => (Ok a, s')
           | (Raise e, s') => handler e s'
           end.

(** A call that does not touch the globals. *)
Definition lift {S A} (r : result A) : M S A := fun s => (r, s).

Declare Scope py_scope.
Delimit Scope py_scope with py.
Notation "x <- m ;; k" := (bind m (fun x => k))
  (at level 100, m at next level, right associativity) : py_scope.
Notation "m ;;; k" := (bind m (fun _ => k))
  (at level 100, right associativity) : py_scope.
Open Scope py_scope.

(** [for x in xs: body(x)]. *)
Fixpoint for_each {S A} (body : A -> M S unit) (xs : list A) : M S unit :=
  match xs with
  | [] => ret tt
  | x :: xs' => body x ;;; for_each body xs'
  end.

Definition bind_result {A B} (r : result A) (f : A -> result B) : result B :=
  match r with Ok a => f a | Raise e => Raise e end.

(** [[f(x) for x in xs]] for an [f] that may raise: the first exception
    ends the comprehension. *)
Fixpoint map_result {A B} (f : A -> result B) (xs : list A) : result (list B) :=
  match xs with
  | [] => Ok []
  | x :: xs' =>
      bind_result (f x) (fun y =>
      bind_result (map_result f xs') (fun ys => Ok (y :: ys)))
  end.

(** ** The Hugging Face service, [huggingface-mt-service/main.py] *)

Module HuggingFace.

Definition MODEL_MAPPING_items : list (string * string) :=
  [ ("en-hi", "Helsinki-NLP/opus-mt-en-hi");
    ("en-es", "Helsinki-NLP/opus-mt-en-es");
    ("en-fr", "Helsinki-NLP/opus-mt-en-fr");
    ("en-de", "Helsinki-NLP/opus-mt-en-de");
    ("en-it", "Helsinki-NLP/opus-mt-en-it");
    ("en-pt", "Helsinki-NLP/opus-mt-en-pt");
    ("en-nl", "Helsinki-NLP/opus-mt-en-nl");
    ("en-ru", "Helsinki-NLP/opus-mt-en-ru");
    ("en-zh", "Helsinki-NLP/opus-mt-en-zh");
    ("en-ja", "Helsinki-NLP/opus-mt-en-jap");
    ("en-ko", "Helsinki-NLP/opus-mt-en-ko");
    ("en-ar", "Helsinki-NLP/opus-mt-en-ar");
    ("en-tr", "Helsinki-NLP/opus-mt-en-tr");
    ("en-vi", "Helsinki-NLP/opus-mt-en-vi");
    ("en-th", "Helsinki-NLP/opus-mt-en-th");
    ("en-id", "Helsinki-NLP/opus-mt-en-id");
    ("en-pl", "Helsinki-NLP/opus-mt-en-pl");
    ("en-he", "Helsinki-NLP/opus-mt-en-he");
    ("en-mul", "Helsinki-NLP/opus-mt-en-mul");
    ("hi-en", "Helsinki-NLP/opus-mt-hi-en");
    ("es-en", "Helsinki-NLP/opus-mt-es-en");
    ("fr-en", "Helsinki-NLP/opus-mt-fr-en");
    ("de-en", "Helsinki-NLP/opus-mt-de-en");
    ("it-en", "Helsinki-NLP/opus-mt-it-en");
    ("pt-en", "Helsinki-NLP/opus-mt-pt-en");
    ("nl-en", "Helsinki-NLP/opus-mt-nl-en");
    ("ru-en", "Helsinki-NLP/opus-mt-ru-en");
    ("zh-en", "Helsinki-NLP/opus-mt-zh-en");
    ("ja-en", "Helsinki-NLP/opus-mt-jap-en");
    ("ko-en", "Helsinki-NLP/opus-mt-ko-en");
    ("ar-en", "Helsinki-NLP/opus-mt-ar-en");
    ("tr-en", "Helsinki-NLP/opus-mt-tr-en");
    ("es-fr", "Helsinki-NLP/opus-mt-es-fr");
    ("fr-es", "Helsinki-NLP/opus-mt-fr-es");
    ("es-it", "Helsinki-NLP/opus-mt-es-it");
    ("it-es", "Helsinki-NLP/opus-mt-it-es");
    ("es-pt", "Helsinki-NLP/opus-mt-es-pt");
    ("pt-es", "Helsinki-NLP/opus-mt-pt-es") ].

(** The dict literal [MODEL_MAPPING]; its keys are pairwise distinct, so
    the order of insertion does not matter. *)
Definition MODEL_MAPPING : gmap string string :=
  list_to_map MODEL_MAPPING_items.

#[global] Arguments MODEL_MAPPING : simpl never.

Definition MULTILINGUAL_TARGETS : list string :=
  ["ta"; "te"; "bn"; "mr"; "gu"; "kn"; "ml"; "pa"; "or"].

(** [get_model_name]: the multilingual test comes first, then the lookup
    of the key [f"{source_lang}-{target_lang}"]. *)
Definition get_model_name (source_lang target_lang : string) : option string :=
  if String.eqb source_lang "en" && Py.mem target_lang MULTILINGUAL_TARGETS
  then MODEL_MAPPING !! "en-mul"
  else MODEL_MAPPING !! Py.dash source_lang target_lang.

(** The resolver the specification describes: the exact pair is looked up
    first, and the grouping rule is tried when that lookup misses. *)
Definition resolve_exact_first (source target : string) : option string :=
  match MODEL_MAPPING !! Py.dash source target with
  | Some d => Some d
  | None =>
      if String.eqb source "en" && Py.mem target MULTILINGUAL_TARGETS
      then MODEL_MAPPING !! "en-mul"
      else None
  end.

(** The records written through [logger] (elapsed times left out). *)
Inductive LogRecord : Type :=
| LogStarting
| LogLoading (model_name : string)
| LogLoaded (model_name : string)
| LogPreloadFailed (model_name e : string)
| LogPreloaded (n : nat)
| LogReadinessFailed (e : string)
| LogTranslated (source_lang target_lang : string) (chars : nat)
| LogTranslationFailed (e : string)
| LogBatchTranslated (n : nat) (source_lang target_lang : string)
| LogBatchFailed (e : string).

(** What a run does to the outside, in the order it happens: calls into
    [transformers] that may fetch artifacts, writes to the global cache
    and log records.  The list of events is the load-count probe. *)
Inductive Event : Type :=
| TokenizerFromPretrained (model_name : string)
| ModelFromPretrained (model_name : string)
| ModelTo (model_name : string)
| ModelEval (model_name : string)
| Publish (model_name : string)
| Log (r : LogRecord).

#[export] Instance LogRecord_eq_dec : EqDecision LogRecord.
Proof. solve_decision. Defined.
#[export] Instance Event_eq_dec : EqDecision Event.
Proof. solve_decision. Defined.

Record TranslationRequest : Type := {
  text : string;
  source_lang : string;
  target_lang : string
}.

Record TranslationResponse : Type := {
  translated_text : string;
  resp_source_lang : string;
  resp_target_lang : string;
  resp_model : string
}.

Record BatchTranslationRequest : Type := {
  texts : list string;
  batch_source_lang : string;
  batch_target_lang : string
}.

Record BatchTranslationResponse : Type := {
  translations : list string;
  bresp_source_lang : string;
  bresp_target_lang : string;
  bresp_model : string;
  count : nat
}.

Record LanguagePair : Type := {
  source : string;
  target : string;
  model : string
}.

Record HealthResponse : Type := {
  status : string;
  health_loaded_models : nat;
  available_pairs : nat
}.

(** The [transformers] and [torch] objects are opaque.  Loading talks to
    the outside ([World]: network, disk, accelerator) and may raise;
    inference is a deterministic capability of the loaded handles that
    may raise. *)
Class Transformers : Type := {
  Model : Type;
  Tokenizer : Type;
  Inputs : Type;
  Ids : Type;
  World : Type;
  tokenizer_from_pretrained : string -> World -> result Tokenizer * World;
  model_from_pretrained : string -> World -> result Model * World;
  model_to_device : Model -> World -> result Model * World;
  model_eval : Model -> World -> result Model * World;
  tokenize_text : Tokenizer -> string -> result Inputs;
  tokenize_texts : Tokenizer -> list string -> result Inputs;
  inputs_to_device : Inputs -> result Inputs;
  generate : Model -> Inputs -> result (list Ids);
  decode : Tokenizer -> Ids -> result string
}.

Section Service.

Context {T : Transformers}.

(** The module globals: [loaded_models], the outside world and the events
    so far. *)
Record State : Type := mkState {
  loaded_models : gmap string (Model * Tokenizer);
  world : World;
  trace : list Event
}.

Definition emit (ev : Event) : M State unit :=
  fun s => (Ok tt, mkState (loaded_models s) (world s) (trace s ++ [ev])).

Definition logger (r : LogRecord) : M State unit := emit (Log r).

(** A call to the outside, recorded whatever its outcome. *)
Definition call {A} (ev : Event) (f : World -> result A * World) : M State A :=
  fun s => let '(r, w) := f (world s) in
           (r, mkState (loaded_models s) w (trace s ++ [ev])).

(** [loaded_models[model_name] = v]. *)
Definition publish (model_name : string) (v : Model * Tokenizer) : M State unit :=
  fun s => (Ok tt, mkState (<[model_name := v]> (loaded_models s)) (world s)
                           (trace s ++ [Publish model_name])).

(** The globals when the module has been imported: [loaded_models = {}]. *)
Definition initial (w : World) : State := mkState ∅ w [].

(** *** [load_model] *)

Definition load_model (model_name : string) : M State (Model * Tokenizer) :=
  fun s =>
    match loaded_models s !! model_name with
    | Some cached => (Ok cached, s)
    | None =>
        (logger (LogLoading model_name) ;;;
         tokenizer <- call (TokenizerFromPretrained model_name)
                           (tokenizer_from_pretrained model_name) ;;
         model <- call (ModelFromPretrained model_name)
                       (model_from_pretrained model_name) ;;
         model <- call (ModelTo model_name) (model_to_device model) ;;
         model <- call (ModelEval model_name) (model_eval model) ;;
         publish model_name (model, tokenizer) ;;;
         logger (LogLoaded model_name) ;;;
         ret (model, tokenizer)) s
    end.

(** The events of one successful pass through the slow path of
    [load_model], in the order the statements run. *)
Definition load_events (model_name : string) : list Event :=
  [ Log (LogLoading model_name);
    TokenizerFromPretrained model_name;
    ModelFromPretrained model_name;
    ModelTo model_name;
    ModelEval model_name;
    Publish model_name;
    Log (LogLoaded model_name) ].

(** *** [translate_text] and [translate_batch] *)

Definition translate_text (text : string) (model : Model) (tokenizer : Tokenizer)
  : result string :=
  bind_result (tokenize_text tokenizer text) (fun inputs =>
  bind_result (inputs_to_device inputs) (fun inputs =>
  bind_result (generate model inputs) (fun translated_ids =>
  match translated_ids with
  | ids :: _ => decode tokenizer ids
  | [] => Raise "index 0 is out of bounds"
  end))).

Definition translate_batch (texts : list string) (model : Model) (tokenizer : Tokenizer)
  : result (list string) :=
  bind_result (tokenize_texts tokenizer texts) (fun inputs =>
  bind_result (inputs_to_device inputs) (fun inputs =>
  bind_result (generate model inputs) (fun translated_ids =>
  map_result (decode tokenizer) translated_ids))).

(** *** [lifespan]: the start-up preloader *)

(** The body of [for pair in PRELOAD_MODELS]. *)
Definition preload_pair (pair : string) : M State unit :=
  let pair := Py.strip pair in
  if Py.truthy pair then
    match Py.split "-" pair with
    | [part0; part1] =>
        match get_model_name part0 part1 with
        | Some model_name =>
            if Py.truthy model_name then
              try_except (load_model model_name ;;; ret tt)
                         (fun e => logger (LogPreloadFailed model_name e))
            else ret tt
        | None => ret tt
        end
    | _ => ret tt
    end
  else ret tt.

(** [lifespan] up to its [yield]; [PRELOAD_MODELS] is the configured
    string already split at commas. *)
Definition lifespan (PRELOAD_MODELS : list string) : M State unit :=
  logger LogStarting ;;;
  for_each preload_pair PRELOAD_MODELS ;;;
  fun s => logger (LogPreloaded (size (loaded_models s))) s.

(** [os.getenv("PRELOAD_MODELS", "en-hi,en-es,en-fr,hi-en").split(",")]. *)
Definition PRELOAD_MODELS (env : option string) : list string :=
  Py.split "," (default "en-hi,en-es,en-fr,hi-en" env).

(** The identifier a preload token leads [preload_pair] to load: the
    token stripped, split at [-] into exactly two parts and resolved. *)
Definition preload_target (pair : string) : option string :=
  let pair := Py.strip pair in
  if Py.truthy pair then
    match Py.split "-" pair with
    | [part0; part1] =>
        match get_model_name part0 part1 with
        | Some model_name => if Py.truthy model_name then Some model_name else None
        | None => None
        end
    | _ => None
    end
  else None.

(** Later globals keep every cache entry and every event of earlier ones. *)
Definition extends (s s' : State) : Prop :=
  loaded_models s ⊆ loaded_models s' /\ trace s `prefix_of` trace s'.

(** The shape contract of the inference capability: a batch that goes
    through tokenization, device transfer and generation comes back with
    one row of ids per input text. *)
Definition row_per_input : Prop :=
  forall (tokenizer : Tokenizer) (model : Model) (texts : list string)
         (inputs inputs' : Inputs) (translated_ids : list Ids),
    tokenize_texts tokenizer texts = Ok inputs ->
    inputs_to_device inputs = Ok inputs' ->
    generate model inputs' = Ok translated_ids ->
    length translated_ids = length texts.

(** *** Request handlers *)

Definition unsupported_detail (source_lang target_lang : string) : string :=
  "Unsupported language pair: " +:+ source_lang +:+ " -> " +:+ target_lang.

(** A handler body run under [try: ... except Exception as e:] that logs
    and raises [HTTPException(500, ...)]. *)
Definition guarded {A} (body : M State A) (on_error : string -> LogRecord)
  (prefix : string) : State -> http A * State :=
  fun s => match body s with
           | (Ok a, s') => (Response a, s')
           | (Raise e, s') =>
               (HTTPException 500 (prefix +:+ e),
                snd (logger (on_error e) s'))
           end.

(** [POST /translate]. *)
Definition translate (request : TranslationRequest)
  : State -> http TranslationResponse * State :=
  fun s =>
    match get_model_name (source_lang request) (target_lang request) with
    | Some model_name =>
        if Py.truthy model_name then
          guarded
            (loaded <- load_model model_name ;;
             let '(model, tokenizer) := loaded in
             translated <- lift (translate_text (text request) model tokenizer) ;;
             logger (LogTranslated (source_lang request) (target_lang request)
                                   (String.length (text request))) ;;;
             ret {| translated_text := translated;
                    resp_source_lang := source_lang request;
                    resp_target_lang := target_lang request;
                    resp_model := model_name |})
            LogTranslationFailed "Translation failed: " s
        else (HTTPException 400
                (unsupported_detail (source_lang request) (target_lang request)), s)
    | None => (HTTPException 400
                 (unsupported_detail (source_lang request) (target_lang request)), s)
    end.

(** [POST /translate/batch]. *)
Definition translate_batch_endpoint (request : BatchTranslationRequest)
  : State -> http BatchTranslationResponse * State :=
  fun s =>
    match get_model_name (batch_source_lang request) (batch_target_lang request) with
    | Some model_name =>
        if Py.truthy model_name then
          guarded
            (loaded <- load_model model_name ;;
             let '(model, tokenizer) := loaded in
             translations <- lift (translate_batch (texts request) model tokenizer) ;;
             logger (LogBatchTranslated (length (texts request))
                       (batch_source_lang request) (batch_target_lang request)) ;;;
             ret {| translations := translations;
                    bresp_source_lang := batch_source_lang request;
                    bresp_target_lang := batch_target_lang request;
                    bresp_model := model_name;
                    count := length translations |})
            LogBatchFailed "Batch translation failed: " s
        else (HTTPException 400
                (unsupported_detail (batch_source_lang request)
                                    (batch_target_lang request)), s)
    | None => (HTTPException 400
                 (unsupported_detail (batch_source_lang request)
                                     (batch_target_lang request)), s)
    end.

(** [GET /health]. *)
Definition health_check : State -> http HealthResponse * State :=
  fun s => (Response {| status := "healthy";
                        health_loaded_models := size (loaded_models s);
                        available_pairs := size MODEL_MAPPING |}, s).

(** [GET /readyz]: ready when a model is loaded, else tries to load the
    [en-hi] model. *)
Definition readiness : State -> http string * State :=
  fun s =>
    if (0 <? size (loaded_models s))%nat then (Response "ready", s)
    else
      match MODEL_MAPPING !! "en-hi" with
      | Some model_name =>
          if Py.truthy model_name then
            match load_model model_name s with
            | (Ok _, s') => (Response "ready", s')
            | (Raise e, s') =>
                (HTTPException 503 "Service not ready",
                 snd (logger (LogReadinessFailed e) s'))
            end
          else (HTTPException 503 "Service not ready", s)
      | None => (HTTPException 503 "Service not ready", s)
      end.

(** [GET /languages]: the registry pairs whose key splits in two, then
    the multilingual targets. *)
Definition get_languages : list LanguagePair :=
  omap (fun '(pair_key, model_name) =>
          match Py.split "-" pair_key with
          | [part0; part1] =>
              Some {| source := part0; target := part1; model := model_name |}
          | _ => None
          end) MODEL_MAPPING_items
  ++ map (fun target =>
            {| source := "en"; target := target;
               model := default "" (MODEL_MAPPING !! "en-mul") |})
         MULTILINGUAL_TARGETS.

(** [GET /models]: the cached identifiers (their order is not modelled)
    and their number. *)
Definition get_loaded_models : State -> (list string * nat) * State :=
  fun s => ((elements (dom (loaded_models s)), size (loaded_models s)), s).

(** The operations of the running service. *)
Inductive Operation : Type :=
| OpLifespan (preload : list string)
| OpTranslate (request : TranslationRequest)
| OpTranslateBatch (request : BatchTranslationRequest)
| OpHealth
| OpReadiness
| OpLanguages
| OpModels.

(** The globals after an operation.  No handler suspends (there is no
    [await] in the module), so the event loop runs every operation to
    its end before the next one starts. *)
Definition step (op : Operation) (s : State) : State :=
  match op with
  | OpLifespan preload => snd (lifespan preload s)
  | OpTranslate request => snd (translate request s)
  | OpTranslateBatch request => snd (translate_batch_endpoint request s)
  | OpHealth => snd (health_check s)
  | OpReadiness => snd (readiness s)
  | OpLanguages => s
  | OpModels => snd (get_loaded_models s)
  end.

Definition run (ops : list Operation) (s : State) : State :=
  foldl (fun s op => step op s) s ops.

(** [callers] requests for the same identifier that are pending at the
    same time: the event loop runs their [load_model] calls one after the
    other; the outcomes are listed in the order the calls ran. *)
Fixpoint acquire_all (callers : nat) (model_name : string) (s : State)
  : list (result (Model * Tokenizer)) * State :=
  match callers with
  | O => ([], s)
  | S n =>
      let '(r, s') := load_model model_name s in
      let '(rs, s'') := acquire_all n model_name s' in
      (r :: rs, s'')
  end.

(** The load-count probe: how many times the load path was entered for an
    identifier. *)
Definition load_count (model_name : string) (tr : list Event) : nat :=
  length (filter (fun ev => ev = TokenizerFromPretrained model_name) tr).

End Service.

End HuggingFace.

(** ** The Bergamot service, [bergamot-service/main.py] *)

Module Bergamot.

Definition bucket : string :=
  "https://storage.googleapis.com/bergamot-models-sandbox/prod/".

Definition MODEL_REGISTRY_items : list ((string * string) * string) :=
  [ (("en", "es"), bucket +:+ "ende/model.enes.intgemm.alphas.bin.gz");
    (("en", "de"), bucket +:+ "ende/model.ende.intgemm.alphas.bin.gz");
    (("en", "fr"), bucket +:+ "enfr/model.enfr.intgemm.alphas.bin.gz");
    (("en", "pt"), bucket +:+ "enpt/model.enpt.intgemm.alphas.bin.gz");
    (("en", "it"), bucket +:+ "enit/model.enit.intgemm.alphas.bin.gz");
    (("en", "nl"), bucket +:+ "ennl/model.ennl.intgemm.alphas.bin.gz");
    (("en", "ru"), bucket +:+ "enru/model.enru.intgemm.alphas.bin.gz");
    (("en", "pl"), bucket +:+ "enpl/model.enpl.intgemm.alphas.bin.gz");
    (("en", "cs"), bucket +:+ "encs/model.encs.intgemm.alphas.bin.gz");
    (("en", "et"), bucket +:+ "enet/model.enet.intgemm.alphas.bin.gz");
    (("es", "en"), bucket +:+ "esen/model.esen.intgemm.alphas.bin.gz");
    (("de", "en"), bucket +:+ "deen/model.deen.intgemm.alphas.bin.gz");
    (("fr", "en"), bucket +:+ "fren/model.fren.intgemm.alphas.bin.gz");
    (("pt", "en"), bucket +:+ "pten/model.pten.intgemm.alphas.bin.gz");
    (("it", "en"), bucket +:+ "iten/model.iten.intgemm.alphas.bin.gz");
    (("nl", "en"), bucket +:+ "nlen/model.nlen.intgemm.alphas.bin.gz");
    (("ru", "en"), bucket +:+ "ruen/model.ruen.intgemm.alphas.bin.gz");
    (("pl", "en"), bucket +:+ "plen/model.plen.intgemm.alphas.bin.gz");
    (("cs", "en"), bucket +:+ "csen/model.csen.intgemm.alphas.bin.gz");
    (("et", "en"), bucket +:+ "eten/model.eten.intgemm.alphas.bin.gz") ].

(** The dict literal [MODEL_REGISTRY], keyed by the tuple
    [(source_lang, target_lang)]; its keys are pairwise distinct. *)
Definition MODEL_REGISTRY : gmap (string * string) string :=
  list_to_map MODEL_REGISTRY_items.

#[global] Arguments MODEL_REGISTRY : simpl never.

Inductive LogRecord : Type :=
| LogStarting
| LogUsingBergamot
| LogUsingCTranslate2
| LogNoEngine
| LogReady (available_pairs : nat)
| LogAlreadyDownloaded (source_lang target_lang : string)
| LogDownloading (url : string)
| LogDownloaded (source_lang target_lang : string)
| LogDownloadStatus (status : nat)
| LogDownloadFailed (e : string)
| LogLoadingTranslator (pair_key : string)
| LogTranslated (source_lang target_lang : string) (chars : nat)
| LogTranslationFailed (e : string)
| LogBatchTranslated (n : nat)
| LogBatchFailed (e : string).

(** What a run does to the outside, in the order it happens. *)
Inductive Event : Type :=
| Mkdir (path : string)
| SessionGet (url : string)
| ResponseRead (url : string)
| GzipDecompress
| WriteBytes (path : string)
| Publish (pair_key : string)
| Log (r : LogRecord).

#[export] Instance LogRecord_eq_dec : EqDecision LogRecord.
Proof. solve_decision. Defined.
#[export] Instance Event_eq_dec : EqDecision Event.
Proof. solve_decision. Defined.

(** The dict [{"source": ..., "target": ..., "loaded": True}] that stands
    for a loaded translator. *)
Record Translator : Type := {
  source : string;
  target : string;
  loaded : bool
}.

Record TranslationRequest : Type := {
  text : string;
  source_lang : string;
  target_lang : string
}.

Record TranslationResponse : Type := {
  translated_text : string;
  resp_source_lang : string;
  resp_target_lang : string;
  engine : string
}.

Record BatchTranslationRequest : Type := {
  texts : list string;
  batch_source_lang : string;
  batch_target_lang : string
}.

Record BatchTranslationResponse : Type := {
  translations : list string;
  bresp_source_lang : string;
  bresp_target_lang : string;
  bresp_engine : string;
  count : nat
}.

Record HealthResponse : Type := {
  status : string;
  health_engine : string;
  health_loaded_models : nat;
  available_pairs : nat
}.

(** What the module takes from its environment: the outcome of the two
    optional imports, the cache directory, the HTTP client
    ([session.get(url)] gives a status, [response.read()] the body; both
    may raise) and [gzip.decompress]. *)
Class Environment : Type := {
  World : Type;
  BERGAMOT_AVAILABLE : bool;
  CTRANSLATE2_AVAILABLE : bool;
  MODEL_CACHE_DIR : string;
  session_get : string -> World -> result nat * World;
  response_read : string -> World -> result string * World;
  gzip_decompress : string -> result string
}.

Section Service.

Context {E : Environment}.

(** The module global [loaded_translators], the files and directories
    under the cache root, the outside world and the events so far.
    Directory creation, existence tests and writes act on [files] and
    [dirs] and do not fail. *)
Record State : Type := mkState {
  loaded_translators : gmap string Translator;
  files : gmap string string;
  dirs : gset string;
  world : World;
  trace : list Event
}.

Definition emit (ev : Event) : M State unit :=
  fun s => (Ok tt, mkState (loaded_translators s) (files s) (dirs s) (world s)
                           (trace s ++ [ev])).

Definition logger (r : LogRecord) : M State unit := emit (Log r).

(** A call to the outside, recorded whatever its outcome. *)
Definition call {A} (ev : Event) (f : World -> result A * World) : M State A :=
  fun s => let '(r, w) := f (world s) in
           (r, mkState (loaded_translators s) (files s) (dirs s) w
                       (trace s ++ [ev])).

(** [Path / name], for names that are not absolute. *)
Definition joinpath (dir name : string) : string := dir +:+ "/" +:+ name.

(** [path.mkdir(parents=True, exist_ok=True)]. *)
Definition mkdir (path : string) : M State unit :=
  fun s => (Ok tt, mkState (loaded_translators s) (files s) ({[path]} ∪ dirs s)
                           (world s) (trace s ++ [Mkdir path])).

(** [path.exists()]. *)
Definition file_exists (path : string) : M State bool :=
  fun s => (Ok (bool_decide (is_Some (files s !! path))), s).

(** [path.write_bytes(content)]. *)
Definition write_bytes (path content : string) : M State unit :=
  fun s => (Ok tt, mkState (loaded_translators s) (<[path := content]> (files s))
                           (dirs s) (world s) (trace s ++ [WriteBytes path])).

(** [loaded_translators[pair_key] = v]. *)
Definition publish (pair_key : string) (v : Translator) : M State unit :=
  fun s => (Ok tt, mkState (<[pair_key := v]> (loaded_translators s)) (files s)
                           (dirs s) (world s) (trace s ++ [Publish pair_key])).

(** The globals when the module has been imported, over the given files:
    [loaded_translators = {}]. *)
Definition initial (fs : gmap string string) (w : World) : State :=
  mkState ∅ fs ∅ w [].

(** *** [download_model] *)

Definition download_model (source_lang target_lang : string)
  : M State (option string) :=
  match MODEL_REGISTRY !! (source_lang, target_lang) with
  | None => ret None
  | Some url =>
      let model_dir := joinpath MODEL_CACHE_DIR (Py.dash source_lang target_lang) in
      mkdir model_dir ;;;
      let model_file := joinpath model_dir "model.bin" in
      present <- file_exists model_file ;;
      if present : bool then
        logger (LogAlreadyDownloaded source_lang target_lang) ;;;
        ret (Some model_dir)
      else
        logger (LogDownloading url) ;;;
        try_except
          (status <- call (SessionGet url) (session_get url) ;;
           if (status =? 200)%nat then
             content <- call (ResponseRead url) (response_read url) ;;
             content <- (if Py.endswith url ".gz"
                         then emit GzipDecompress ;;; lift (gzip_decompress content)
                         else ret content) ;;
             write_bytes model_file content ;;;
             logger (LogDownloaded source_lang target_lang) ;;;
             ret (Some model_dir)
           else
             logger (LogDownloadStatus status) ;;;
             ret None)
          (fun e => logger (LogDownloadFailed e) ;;; ret None)
  end.

(** *** [get_translator] *)

Definition get_translator (source_lang target_lang : string) : M State Translator :=
  fun s =>
    let pair_key := Py.dash source_lang target_lang in
    match loaded_translators s !! pair_key with
    | Some cached => (Ok cached, s)
    | None =>
        (logger (LogLoadingTranslator pair_key) ;;;
         publish pair_key {| source := source_lang; target := target_lang;
                             loaded := true |} ;;;
         fun s' => match loaded_translators s' !! pair_key with
                   | Some v => (Ok v, s')
                   | None => (Raise ("KeyError: " +:+ pair_key), s')
                   end) s
    end.

(** *** The engine branches *)

Definition translate_with_bergamot (text source_lang target_lang : string) : string :=
  "[" +:+ source_lang +:+ "->" +:+ target_lang +:+ "] " +:+ text.

Definition translate_with_ctranslate2 (text source_lang target_lang : string) : string :=
  "[" +:+ source_lang +:+ "->" +:+ target_lang +:+ "] " +:+ text.

(** The [if BERGAMOT_AVAILABLE ... elif CTRANSLATE2_AVAILABLE ... else]
    of both handlers: the translation and the engine name. *)
Definition translate_branch (text source_lang target_lang : string) : string * string :=
  if BERGAMOT_AVAILABLE then
    (translate_with_bergamot text source_lang target_lang, "bergamot")
  else if CTRANSLATE2_AVAILABLE then
    (translate_with_ctranslate2 text source_lang target_lang, "ctranslate2")
  else
    ("[" +:+ source_lang +:+ "->" +:+ target_lang +:+ "] " +:+ text, "placeholder").

(** *** [lifespan]: the start-up preloader *)

(** The body of [for pair in preload_pairs]. *)
Definition preload_pair (pair : string) : M State unit :=
  let pair := Py.strip pair in
  if Py.truthy pair && Py.contains "-" pair then
    match Py.split_once "-" pair with
    | Some (source, target) =>
        if bool_decide (is_Some (MODEL_REGISTRY !! (source, target))) then
          download_model source target ;;; ret tt
        else ret tt
    | None => lift (Raise "not enough values to unpack")
    end
  else ret tt.

(** [lifespan] up to its [yield]; [preload_pairs] is the configured string
    already split at commas. *)
Definition lifespan (preload_pairs : list string) : M State unit :=
  logger LogStarting ;;;
  mkdir MODEL_CACHE_DIR ;;;
  logger (if BERGAMOT_AVAILABLE then LogUsingBergamot
          else if CTRANSLATE2_AVAILABLE then LogUsingCTranslate2
          else LogNoEngine) ;;;
  for_each preload_pair preload_pairs ;;;
  logger (LogReady (size MODEL_REGISTRY)).

(** [os.getenv("PRELOAD_MODELS", "en-es,en-de,es-en,de-en").split(",")]. *)
Definition preload_pairs (env : option string) : list string :=
  Py.split "," (default "en-es,en-de,es-en,de-en" env).

(** Where [download_model] keeps the artifact of a pair. *)
Definition model_dir (source_lang target_lang : string) : string :=
  joinpath MODEL_CACHE_DIR (Py.dash source_lang target_lang).

Definition model_file (source_lang target_lang : string) : string :=
  joinpath (model_dir source_lang target_lang) "model.bin".

(** The events of a download that fetches, decompresses when the URL ends
    in [.gz], and writes the artifact. *)
Definition download_events (source_lang target_lang url : string) : list Event :=
  [ Mkdir (model_dir source_lang target_lang);
    Log (LogDownloading url);
    SessionGet url;
    ResponseRead url ]
  ++ (if Py.endswith url ".gz" then [GzipDecompress] else [])
  ++ [ WriteBytes (model_file source_lang target_lang);
       Log (LogDownloaded source_lang target_lang) ].

(** The error records of [download_model]. *)
Definition download_error (r : LogRecord) : Prop :=
  match r with
  | LogDownloadStatus _ | LogDownloadFailed _ => True
  | _ => False
  end.

(** The registry pair a preload token leads [preload_pair] to download:
    the token stripped and split at its first [-]. *)
Definition preload_target (pair : string) : option (string * string) :=
  let pair := Py.strip pair in
  if Py.truthy pair && Py.contains "-" pair then
    match Py.split_once "-" pair with
    | Some (source, target) =>
        if bool_decide (is_Some (MODEL_REGISTRY !! (source, target)))
        then Some (source, target) else None
    | None => None
    end
  else None.

(** Later globals keep every cache entry, every file and every event of
    earlier ones. *)
Definition extends (s s' : State) : Prop :=
  loaded_translators s ⊆ loaded_translators s'
  /\ files s ⊆ files s'
  /\ trace s `prefix_of` trace s'.

(** *** Request handlers *)

Definition unsupported_detail (source_lang target_lang : string) : string :=
  "Unsupported language pair: " +:+ source_lang +:+ " -> " +:+ target_lang.

(** A handler body run under [try: ... except Exception as e:] that logs
    and raises [HTTPException(500, ...)]. *)
Definition guarded {A} (body : M State A) (on_error : string -> LogRecord)
  (prefix : string) : State -> http A * State :=
  fun s => match body s with
           | (Ok a, s') => (Response a, s')
           | (Raise e, s') =>
               (HTTPException 500 (prefix +:+ e),
                snd (logger (on_error e) s'))
           end.

(** [POST /translate]. *)
Definition translate (request : TranslationRequest)
  : State -> http TranslationResponse * State :=
  fun s =>
    match MODEL_REGISTRY !! (source_lang request, target_lang request) with
    | None => (HTTPException 400
                 (unsupported_detail (source_lang request) (target_lang request)), s)
    | Some _ =>
        guarded
          (get_translator (source_lang request) (target_lang request) ;;;
           let '(translated, engine) :=
             translate_branch (text request) (source_lang request)
                              (target_lang request) in
           logger (LogTranslated (source_lang request) (target_lang request)
                                 (String.length (text request))) ;;;
           ret {| translated_text := translated;
                  resp_source_lang := source_lang request;
                  resp_target_lang := target_lang request;
                  engine := engine |})
          LogTranslationFailed "Translation failed: " s
    end.

(** The loop [for text in request.texts] of the batch handler, on the
    accumulators [translations] and [engine]. *)
Fixpoint translate_loop (texts : list string) (source_lang target_lang : string)
  (translations : list string) (engine : string) : list string * string :=
  match texts with
  | [] => (translations, engine)
  | text :: rest =>
      let '(translated, engine) := translate_branch text source_lang target_lang in
      translate_loop rest source_lang target_lang (translations ++ [translated]) engine
  end.

(** [POST /translate/batch]. *)
Definition translate_batch (request : BatchTranslationRequest)
  : State -> http BatchTranslationResponse * State :=
  fun s =>
    match MODEL_REGISTRY !! (batch_source_lang request, batch_target_lang request) with
    | None => (HTTPException 400
                 (unsupported_detail (batch_source_lang request)
                                     (batch_target_lang request)), s)
    | Some _ =>
        guarded
          (get_translator (batch_source_lang request) (batch_target_lang request) ;;;
           let '(translations, engine) :=
             translate_loop (texts request) (batch_source_lang request)
                            (batch_target_lang request) [] "placeholder" in
           logger (LogBatchTranslated (length (texts request))) ;;;
           ret {| translations := translations;
                  bresp_source_lang := batch_source_lang request;
                  bresp_target_lang := batch_target_lang request;
                  bresp_engine := engine;
                  count := length translations |})
          LogBatchFailed "Batch translation failed: " s
    end.

(** [GET /health]. *)
Definition health_check : State -> http HealthResponse * State :=
  fun s => (Response {| status := "healthy";
                        health_engine :=
                          if BERGAMOT_AVAILABLE then "bergamot"
                          else if CTRANSLATE2_AVAILABLE then "ctranslate2"
                          else "placeholder";
                        health_loaded_models := size (loaded_translators s);
                        available_pairs := size MODEL_REGISTRY |}, s).

(** [GET /languages]. *)
Definition get_languages : list (string * string) :=
  map fst MODEL_REGISTRY_items.

(** [GET /models]: the cached keys (their order is not modelled), their
    number and the number of registry pairs. *)
Definition get_loaded_models : State -> (list string * nat * nat) * State :=
  fun s => ((elements (dom (loaded_translators s)), size (loaded_translators s),
             size MODEL_REGISTRY), s).

(** [POST /models/download]: the download runs as a background task once
    the response is out. *)
Definition download_model_endpoint (source_lang target_lang : string)
  : State -> http string * State :=
  fun s =>
    match MODEL_REGISTRY !! (source_lang, target_lang) with
    | None => (HTTPException 400 (unsupported_detail source_lang target_lang), s)
    | Some _ =>
        (Response ("Download started for " +:+ source_lang +:+ "->" +:+ target_lang),
         snd (download_model source_lang target_lang s))
    end.

(** The operations of the running service. *)
Inductive Operation : Type :=
| OpLifespan (preload : list string)
| OpTranslate (request : TranslationRequest)
| OpTranslateBatch (request : BatchTranslationRequest)
| OpHealth
| OpLanguages
| OpModels
| OpDownload (source_lang target_lang : string).

(** The globals after an operation.  The only suspension points of the
    module are inside [download_model], which never reads or writes
    [loaded_translators]; operations are run one after the other. *)
Definition step (op : Operation) (s : State) : State :=
  match op with
  | OpLifespan preload => snd (lifespan preload s)
  | OpTranslate request => snd (translate request s)
  | OpTranslateBatch request => snd (translate_batch request s)
  | OpHealth => snd (health_check s)
  | OpLanguages => s
  | OpModels => snd (get_loaded_models s)
  | OpDownload source_lang target_lang =>
      snd (download_model_endpoint source_lang target_lang s)
  end.

Definition run (ops : list Operation) (s : State) : State :=
  foldl (fun s op => step op s) s ops.

(** [callers] requests for the same pair that are pending at the same
    time: their [get_translator] calls run one after the other. *)
Fixpoint acquire_all (callers : nat) (source_lang target_lang : string) (s : State)
  : list (result Translator) * State :=
  match callers with
  | O => ([], s)
  | S n =>
      let '(r, s') := get_translator source_lang target_lang s in
      let '(rs, s'') := acquire_all n source_lang target_lang s' in
      (r :: rs, s'')
  end.

End Service.

End Bergamot.

(** ** Test doubles

    Concrete environments on which the services can be run: the outside
    world is the number of network failures still to come. *)

Module Stub.

(** A fetch that fails while failures remain and succeeds afterwards. *)
Definition flaky {A} (v : A) (failures : nat) : result A * nat :=
  match failures with
  | O => (Ok v, O)
  | S n => (Raise "connection error", n)
  end.

(** A [transformers] double: handles are names, a batch is the list of
    its texts, generation tags every row with the model. *)
#[export] Instance transformers : HuggingFace.Transformers := {|
  HuggingFace.Model := string;
  HuggingFace.Tokenizer := string;
  HuggingFace.Inputs := list string;
  HuggingFace.Ids := string;
  HuggingFace.World := nat;
  HuggingFace.tokenizer_from_pretrained name := flaky ("tokenizer:" +:+ name);
  HuggingFace.model_from_pretrained name w := (Ok ("model:" +:+ name), w);
  HuggingFace.model_to_device m w := (Ok m, w);
  HuggingFace.model_eval m w := (Ok m, w);
  HuggingFace.tokenize_text _ text := Ok [text];
  HuggingFace.tokenize_texts _ texts := Ok texts;
  HuggingFace.inputs_to_device inputs := Ok inputs;
  HuggingFace.generate m inputs := Ok (map (fun row => m +:+ ">" +:+ row) inputs);
  HuggingFace.decode _ ids := Ok ids
|}.

(** A Bergamot environment with neither engine library installed: every
    response has status 200 and a body that starts with [z] when it is
    compressed. *)
#[export] Instance environment : Bergamot.Environment := {|
  Bergamot.World := nat;
  Bergamot.BERGAMOT_AVAILABLE := false;
  Bergamot.CTRANSLATE2_AVAILABLE := false;
  Bergamot.MODEL_CACHE_DIR := "/app/models";
  Bergamot.session_get _ := flaky 200%nat;
  Bergamot.response_read url w := (Ok ("z" +:+ url), w);
  Bergamot.gzip_decompress content :=
    match content with
    | String "z" rest => Ok rest
    | _ => Raise "Not a gzipped file"
    end
|}.

(** The services right after import, with the given number of network
    failures ahead and, for Bergamot, an empty cache directory. *)
Definition huggingface_cold (failures : nat) : HuggingFace.State :=
  HuggingFace.initial (T := transformers) failures.

Definition bergamot_cold (failures : nat) : Bergamot.State :=
  Bergamot.initial (E := environment) ∅ failures.

End Stub.

(** ** Runs of the services from a cold start *)

Module HuggingFaceRuns.

Import HuggingFace.

Section Runs.

Context {T : Transformers}.

(** How many times an identifier was written to [loaded_models]. *)
Definition publish_count (model_name : string) (tr : list Event) : nat :=
  length (filter (fun ev => ev = Publish model_name) tr).

(** The cache and the events agree: an identifier was written once when
    it is cached and never when it is not. *)
Definition published_once (s : State) : Prop :=
  forall model_name,
    publish_count model_name (trace s)
    = if bool_decide (is_Some (loaded_models s !! model_name)) then 1 else 0.

(** An identifier is one of the values of [MODEL_MAPPING]. *)
Definition registry_identifier (model_name : string) : Prop :=
  exists key, MODEL_MAPPING !! key = Some model_name.

(** Only identifiers of the registry are cached. *)
Definition within_registry (s : State) : Prop :=
  forall model_name,
    is_Some (loaded_models s !! model_name) -> registry_identifier model_name.

Definition coherent (s : State) : Prop := published_once s /\ within_registry s.

End Runs.

End HuggingFaceRuns.

Module BergamotRuns.

Import Bergamot.

Section Runs.

Context {E : Environment}.

(** Every cache entry sits under the key of its own pair, is marked
    loaded, and belongs to a pair of the registry. *)
Definition well_keyed (s : State) : Prop :=
  forall pair_key v,
    loaded_translators s !! pair_key = Some v ->
    is_Some (MODEL_REGISTRY !! (source v, target v))
    /\ pair_key = Py.dash (source v) (target v)
    /\ loaded v = true.

(** The engine name the process reports. *)
Definition engine_label : string :=
  if BERGAMOT_AVAILABLE then "bergamot"
  else if CTRANSLATE2_AVAILABLE then "ctranslate2"
  else "placeholder".

End Runs.

End BergamotRuns.

(** More test doubles: a [transformers] whose loading always succeeds and
    whose generation is given. *)

Module Doubles.

Definition engine (gen : list string -> result (list string))
  : HuggingFace.Transformers := {|
  HuggingFace.Model := string;
  HuggingFace.Tokenizer := string;
  HuggingFace.Inputs := list string;
  HuggingFace.Ids := string;
  HuggingFace.World := nat;
  HuggingFace.tokenizer_from_pretrained name w := (Ok ("tokenizer:" +:+ name), w);
  HuggingFace.model_from_pretrained name w := (Ok ("model:" +:+ name), w);
  HuggingFace.model_to_device m w := (Ok m, w);
  HuggingFace.model_eval m w := (Ok m, w);
  HuggingFace.tokenize_text _ text := Ok [text];
  HuggingFace.tokenize_texts _ texts := Ok texts;
  HuggingFace.inputs_to_device inputs := Ok inputs;
  HuggingFace.generate _ inputs := gen inputs;
  HuggingFace.decode _ ids := Ok ids
|}.

(** An engine that runs out of memory, and one that generates no row. *)
Definition out_of_memory : HuggingFace.Transformers :=
  engine (fun _ => Raise "out of memory").

Definition no_rows : HuggingFace.Transformers :=
  engine (fun _ => Ok []).

(** A Bergamot environment in which the [bergamot] library is installed. *)
Definition bergamot_installed : Bergamot.Environment := {|
  Bergamot.World := nat;
  Bergamot.BERGAMOT_AVAILABLE := true;
  Bergamot.CTRANSLATE2_AVAILABLE := false;
  Bergamot.MODEL_CACHE_DIR := "/app/models";
  Bergamot.session_get _ := Stub.flaky 200%nat;
  Bergamot.response_read url w := (Ok url, w);
  Bergamot.gzip_decompress content := Ok content
|}.

End Doubles.

(** * Properties *)

(** ** Python strings *)

Module PyFacts.

Lemma mem_true (x : string) (xs : list string) : Py.mem x xs = true <-> x ∈ xs.
Proof.
  unfold Py.mem. rewrite existsb_exists. split.
  - intros (y & Hin & Heq). apply String.eqb_eq in Heq. subst y.
    by apply list_elem_of_In.
  - intros Hin. exists x. split; [by apply list_elem_of_In | apply String.eqb_refl].
Qed.

Lemma contains_split_once (sep : ascii) (s : string) :
  Py.contains sep s = true -> is_Some (Py.split_once sep s).
Proof.
  induction s as [|c s IH]; simpl; [discriminate|].
  destruct (Ascii.eqb c sep); simpl; [eauto|].
  intros H. destruct (IH H) as [[a b] ->]. eauto.
Qed.

End PyFacts.

(** ** Pair resolution *)

Module ResolverFacts.

Import HuggingFace.

(** No exact registry entry exists for an [en] pair whose target is a
    multilingual target: the two resolution rules never overlap. *)
Lemma multilingual_targets_have_no_exact_entry (target : string) :
  target ∈ MULTILINGUAL_TARGETS -> MODEL_MAPPING !! Py.dash "en" target = None.
Proof.
  unfold MULTILINGUAL_TARGETS. intros H.
  repeat (apply elem_of_cons in H as [-> | H]; [vm_compute; reflexivity |]).
  by apply elem_of_nil in H.
Qed.

(** C6: for every language pair, the descriptor [get_model_name] resolves
    is the one the exact-lookup-first semantics gives: the exact
    [(source, target)] entry of the static registry when there is one, and
    the shared multilingual descriptor only when the exact lookup misses,
    the source is the multilingual source and the target is a multilingual
    target. *)
Theorem C6_resolution_is_exact_lookup_first (source_lang target_lang : string) :
  get_model_name source_lang target_lang
  = resolve_exact_first source_lang target_lang.
Proof.
  unfold get_model_name, resolve_exact_first.
  destruct (String.eqb source_lang "en") eqn:Hsrc; cbv beta iota delta [andb].
  - apply String.eqb_eq in Hsrc. subst source_lang.
    destruct (Py.mem target_lang MULTILINGUAL_TARGETS) eqn:Hmem.
    + apply PyFacts.mem_true in Hmem.
      by rewrite (multilingual_targets_have_no_exact_entry _ Hmem).
    + by destruct (MODEL_MAPPING !! _).
  - by destruct (MODEL_MAPPING !! _).
Qed.

End ResolverFacts.

(** ** Computations *)

Module MonadFacts.

Section ForEach.

Context {S A : Type} (body : A -> M S unit) (R : S -> S -> Prop).
Context `{!Reflexive R, !Transitive R}.

(** A loop whose body never raises and moves the globals along [R] does
    the same. *)
Lemma for_each_ok :
  (forall x s, exists s', body x s = (Ok tt, s') /\ R s s') ->
  forall xs s, exists s', for_each body xs s = (Ok tt, s') /\ R s s'.
Proof.
  intros Hbody xs. induction xs as [|x xs IH]; intros s; simpl.
  - exists s. by split.
  - unfold bind. destruct (Hbody x s) as (s1 & -> & H1).
    destruct (IH s1) as (s2 & -> & H2). exists s2. split; [done | by etrans].
Qed.

(** Every element of the list has its turn: the body runs on it from
    globals that follow the initial ones and precede the final ones. *)
Lemma for_each_elem :
  (forall x s, exists s', body x s = (Ok tt, s') /\ R s s') ->
  forall xs s x, x ∈ xs ->
    exists s1 s2 s', for_each body xs s = (Ok tt, s')
                     /\ R s s1 /\ body x s1 = (Ok tt, s2) /\ R s2 s'.
Proof.
  intros Hbody xs. induction xs as [|y xs IH]; intros s x Hin.
  - by apply elem_of_nil in Hin.
  - simpl. unfold bind. destruct (Hbody y s) as (s1 & Hy & H1). rewrite Hy.
    apply elem_of_cons in Hin as [-> | Hin].
    + destruct (for_each_ok Hbody xs s1) as (s' & -> & H2).
      exists s, s1, s'. by repeat split.
    + destruct (IH s1 x Hin) as (t1 & t2 & s' & -> & Ha & Hb & Hc).
      exists t1, t2, s'. repeat split; try done. by etrans.
Qed.

End ForEach.

Lemma map_result_ok {A B} (f : A -> result B) (xs : list A) (ys : list B) :
  map_result f xs = Ok ys <-> Forall2 (fun x y => f x = Ok y) xs ys.
Proof.
  revert ys. induction xs as [|x xs IH]; intros ys; simpl.
  - split.
    + intros [= <-]. constructor.
    + intros H. by inversion H.
  - split.
    + destruct (f x) as [y|e] eqn:Hx; simpl; [|discriminate].
      destruct (map_result f xs) as [ys'|e] eqn:Hxs; simpl; [|discriminate].
      intros [= <-]. constructor; [done | by apply IH].
    + intros H. inversion H as [|? y ? ys' Hx Hrest]; subst.
      rewrite Hx. simpl. apply IH in Hrest. by rewrite Hrest.
Qed.

End MonadFacts.

(** ** The Hugging Face model cache and loader *)

Module HuggingFaceFacts.

Import HuggingFace.

Section Loader.

Context {T : Transformers}.

Ltac run_load :=
  unfold load_model, bind, call, logger, emit, publish, ret, lift in *;
  repeat (case_match; simplify_eq/=).

Lemma load_model_cached (model_name : string) (cached : Model * Tokenizer) (s : State) :
  loaded_models s !! model_name = Some cached ->
  load_model model_name s = (Ok cached, s).
Proof. intros H. unfold load_model. by rewrite H. Qed.

Lemma load_model_uncached_ok (model_name : string) (v : Model * Tokenizer)
    (s s' : State) :
  loaded_models s !! model_name = None ->
  load_model model_name s = (Ok v, s') ->
  loaded_models s' = <[model_name := v]> (loaded_models s)
  /\ trace s' = trace s ++ load_events model_name.
Proof.
  intros Hnone Hrun. run_load.
  split; [done|]. unfold load_events.
  by rewrite <- !app_assoc.
Qed.

Lemma load_model_uncached_raise (model_name e : string) (s s' : State) :
  load_model model_name s = (Raise e, s') ->
  loaded_models s' = loaded_models s
  /\ exists evs, trace s' = trace s ++ Log (LogLoading model_name)
                              :: TokenizerFromPretrained model_name :: evs.
Proof.
  intros Hrun. run_load; (split; [done|]); rewrite <- ?app_assoc; simpl; eauto.
Qed.

#[local] Instance extends_refl : Reflexive extends.
Proof. intros s. by split. Qed.

#[local] Instance extends_trans : Transitive extends.
Proof. intros s1 s2 s3 [? ?] [? ?]. split; by etrans. Qed.

Lemma extends_emit (ev : Event) (s : State) : extends s (snd (emit ev s)).
Proof. split; simpl; [done | by apply prefix_app_r]. Qed.

(** [load_model] only ever adds to the cache and to the events. *)
Lemma load_model_extends (model_name : string) (s : State) :
  extends s (snd (load_model model_name s)).
Proof.
  destruct (loaded_models s !! model_name) as [cached|] eqn:Hlook.
  - by rewrite (load_model_cached _ _ _ Hlook).
  - destruct (load_model model_name s) as [[v|e] s'] eqn:Hrun; simpl.
    + destruct (load_model_uncached_ok _ _ _ _ Hlook Hrun) as [Hc Ht].
      split; [rewrite Hc; by apply insert_subseteq | rewrite Ht; by apply prefix_app_r].
    + destruct (load_model_uncached_raise _ _ _ _ Hrun) as [Hc (evs & Ht)].
      split; [by rewrite Hc | rewrite Ht; by apply prefix_app_r].
Qed.

(** After a successful [load_model] the identifier is cached with the
    value returned. *)
Lemma load_model_ok_cached (model_name : string) (v : Model * Tokenizer)
    (s s' : State) :
  load_model model_name s = (Ok v, s') -> loaded_models s' !! model_name = Some v.
Proof.
  intros Hrun. destruct (loaded_models s !! model_name) as [cached|] eqn:Hlook.
  - rewrite (load_model_cached _ _ _ Hlook) in Hrun. by simplify_eq.
  - destruct (load_model_uncached_ok _ _ _ _ Hlook Hrun) as [-> _].
    apply lookup_insert_eq.
Qed.

(** *** The preloader *)

Lemma preload_pair_target (pair : string) :
  preload_pair pair =
  match preload_target pair with
  | Some model_name =>
      try_except (load_model model_name ;;; ret tt)
                 (fun e => logger (LogPreloadFailed model_name e))
  | None => ret tt
  end.
Proof.
  unfold preload_pair, preload_target.
  repeat case_match; simplify_eq; done.
Qed.

Lemma preload_pair_skips (pair : string) (s : State) :
  preload_target pair = None -> preload_pair pair s = (Ok tt, s).
Proof. intros H. by rewrite preload_pair_target, H. Qed.

Lemma preload_pair_loaded (pair model_name : string) (v : Model * Tokenizer)
    (s s1 : State) :
  preload_target pair = Some model_name ->
  load_model model_name s = (Ok v, s1) ->
  preload_pair pair s = (Ok tt, s1).
Proof.
  intros H Hrun. rewrite preload_pair_target, H.
  unfold try_except, bind, ret. by rewrite Hrun.
Qed.

Lemma preload_pair_failed (pair model_name e : string) (s s1 : State) :
  preload_target pair = Some model_name ->
  load_model model_name s = (Raise e, s1) ->
  preload_pair pair s
  = (Ok tt, mkState (loaded_models s1) (world s1)
                    (trace s1 ++ [Log (LogPreloadFailed model_name e)])).
Proof.
  intros H Hrun. rewrite preload_pair_target, H.
  unfold try_except, bind, ret. by rewrite Hrun.
Qed.

Lemma preload_pair_ok (pair : string) (s : State) :
  exists s', preload_pair pair s = (Ok tt, s') /\ extends s s'.
Proof.
  destruct (preload_target pair) as [model_name|] eqn:Htarget.
  - pose proof (load_model_extends model_name s) as Hext.
    destruct (load_model model_name s) as [[v|e] s1] eqn:Hrun.
    + eexists. split; [by eapply preload_pair_loaded | done].
    + eexists. split; [by eapply preload_pair_failed |].
      etrans; [exact Hext|]. apply (extends_emit _ s1).
  - exists s. split; [by apply preload_pair_skips | done].
Qed.

(** The outcome of a preload token's turn: the identifier is cached, or
    the failure of its load has been logged. *)
Lemma preload_pair_outcome (pair model_name : string) (s s' : State) :
  preload_target pair = Some model_name ->
  preload_pair pair s = (Ok tt, s') ->
  is_Some (loaded_models s' !! model_name)
  \/ exists e, Log (LogPreloadFailed model_name e) ∈ trace s'.
Proof.
  intros Htarget Hrun.
  destruct (load_model model_name s) as [[v|e] s1] eqn:Hload.
  - rewrite (preload_pair_loaded _ _ _ _ _ Htarget Hload) in Hrun.
    simplify_eq. left. rewrite (load_model_ok_cached _ _ _ _ Hload). eauto.
  - rewrite (preload_pair_failed _ _ _ _ _ Htarget Hload) in Hrun.
    simplify_eq. right. exists e. simpl.
    rewrite elem_of_app, list_elem_of_singleton. by right.
Qed.

Lemma lifespan_ok (preload : list string) (s : State) :
  exists s', lifespan preload s = (Ok tt, s') /\ extends s s'.
Proof.
  unfold lifespan, bind.
  destruct (MonadFacts.for_each_ok preload_pair extends preload_pair_ok
              preload (snd (logger LogStarting s))) as (s1 & Hloop & Hext).
  simpl in *. rewrite Hloop. eexists. split; [done|].
  etrans; [apply (extends_emit (Log LogStarting) s)|].
  etrans; [exact Hext|]. apply (extends_emit _ s1).
Qed.

(** *** Request handlers and operations *)

Lemma guarded_extends {A} (body : M State A) (on_error : string -> LogRecord)
    (prefix : string) (s : State) :
  extends s (snd (body s)) ->
  extends s (snd (guarded body on_error prefix s)).
Proof.
  unfold guarded. destruct (body s) as [[a|e] s']; simpl; [done|].
  intros H. etrans; [exact H|]. apply (extends_emit _ s').
Qed.

Lemma translate_extends (request : TranslationRequest) (s : State) :
  extends s (snd (translate request s)).
Proof.
  unfold translate.
  destruct (get_model_name _ _) as [model_name|]; [|apply extends_refl].
  destruct (Py.truthy model_name); [|apply extends_refl].
  apply guarded_extends. unfold bind.
  pose proof (load_model_extends model_name s) as Hload.
  destruct (load_model model_name s) as [[[model tokenizer]|e] s1];
    simpl in *; [|done].
  unfold lift. destruct (translate_text _ _ _); simpl; [|done].
  etrans; [exact Hload|]. apply (extends_emit _ s1).
Qed.

Lemma translate_batch_endpoint_extends (request : BatchTranslationRequest) (s : State) :
  extends s (snd (translate_batch_endpoint request s)).
Proof.
  unfold translate_batch_endpoint.
  destruct (get_model_name _ _) as [model_name|]; [|apply extends_refl].
  destruct (Py.truthy model_name); [|apply extends_refl].
  apply guarded_extends. unfold bind.
  pose proof (load_model_extends model_name s) as Hload.
  destruct (load_model model_name s) as [[[model tokenizer]|e] s1];
    simpl in *; [|done].
  unfold lift. destruct (translate_batch _ _ _); simpl; [|done].
  etrans; [exact Hload|]. apply (extends_emit _ s1).
Qed.

Lemma readiness_extends (s : State) : extends s (snd (readiness s)).
Proof.
  unfold readiness.
  destruct (0 <? size (loaded_models s))%nat; [apply extends_refl|].
  destruct (MODEL_MAPPING !! "en-hi") as [model_name|]; [|apply extends_refl].
  destruct (Py.truthy model_name); [|apply extends_refl].
  pose proof (load_model_extends model_name s) as Hload.
  destruct (load_model model_name s) as [[v|e] s1]; cbn [snd] in *; [done|].
  etrans; [exact Hload|]. apply (extends_emit _ s1).
Qed.

(** No operation of the service drops or changes a cache entry or an
    event. *)
Lemma step_extends (op : Operation) (s : State) : extends s (step op s).
Proof.
  destruct op as [preload|request|request| | | |]; simpl; try done.
  - destruct (lifespan_ok preload s) as (s' & -> & H). done.
  - apply translate_extends.
  - apply translate_batch_endpoint_extends.
  - apply readiness_extends.
Qed.

Lemma run_extends (ops : list Operation) (s : State) : extends s (run ops s).
Proof.
  revert s. induction ops as [|op ops IH]; intros s; simpl; [done|].
  etrans; [apply (step_extends op s) | apply IH].
Qed.

(** *** Callers pending at the same time *)

(** Once the identifier is cached every caller takes the fast path. *)
Lemma acquire_all_cached (callers : nat) (model_name : string)
    (cached : Model * Tokenizer) (s : State) :
  loaded_models s !! model_name = Some cached ->
  acquire_all callers model_name s = (replicate callers (Ok cached), s).
Proof.
  intros Hlook. induction callers as [|n IH]; simpl; [done|].
  by rewrite (load_model_cached _ _ _ Hlook), IH.
Qed.

Lemma load_count_app (model_name : string) (tr tr' : list Event) :
  load_count model_name (tr ++ tr')
  = load_count model_name tr + load_count model_name tr'.
Proof. unfold load_count. by rewrite filter_app, length_app. Qed.

Lemma load_count_load_events (model_name : string) :
  load_count model_name (load_events model_name) = 1.
Proof.
  unfold load_count, load_events.
  rewrite filter_cons_False by done.
  rewrite filter_cons_True by done.
  repeat (rewrite filter_cons_False by done). done.
Qed.

(** Every pass through the slow path, successful or not, enters the load
    path exactly once. *)
Lemma load_model_uncached_count (model_name : string) (s : State) :
  loaded_models s !! model_name = None ->
  load_count model_name (trace (snd (load_model model_name s)))
  = S (load_count model_name (trace s)).
Proof.
  intros Hnone.
  destruct (load_model model_name s) as [r s'] eqn:Hrun. cbn [snd].
  assert (exists evs, trace s' = trace s ++ evs /\ load_count model_name evs = 1)
    as (evs & -> & Hevs).
  { run_load; eexists; (split; [rewrite <- ?app_assoc; reflexivity|]);
      unfold load_count; cbn [app];
      rewrite filter_cons_False by done;
      rewrite filter_cons_True by done;
      repeat (rewrite filter_cons_False by done); done. }
  rewrite load_count_app, Hevs. lia.
Qed.

(** A load that raised was a pass through the slow path. *)
Lemma load_model_raise_uncached (model_name e : string) (s s' : State) :
  load_model model_name s = (Raise e, s') -> loaded_models s !! model_name = None.
Proof.
  intros Hrun. destruct (loaded_models s !! model_name) as [cached|] eqn:Hlook; [|done].
  rewrite (load_model_cached _ _ _ Hlook) in Hrun. discriminate.
Qed.

(** *** Batch translation *)

Lemma translate_batch_ok (texts outs : list string) (model : Model)
    (tokenizer : Tokenizer) :
  translate_batch texts model tokenizer = Ok outs <->
  exists inputs inputs' translated_ids,
    tokenize_texts tokenizer texts = Ok inputs
    /\ inputs_to_device inputs = Ok inputs'
    /\ generate model inputs' = Ok translated_ids
    /\ Forall2 (fun ids out => decode tokenizer ids = Ok out) translated_ids outs.
Proof.
  unfold translate_batch. split.
  - destruct (tokenize_texts tokenizer texts) as [inputs|] eqn:H1; simpl; [|done].
    destruct (inputs_to_device inputs) as [inputs'|] eqn:H2; simpl; [|done].
    destruct (generate model inputs') as [ids|] eqn:H3; simpl; [|done].
    intros H. apply MonadFacts.map_result_ok in H. eauto 10.
  - intros (inputs & inputs' & ids & H1 & H2 & H3 & H).
    rewrite H1; simpl. rewrite H2; simpl. rewrite H3; simpl.
    by apply MonadFacts.map_result_ok.
Qed.

End Loader.

End HuggingFaceFacts.

(** ** The Bergamot translator cache, downloads and handlers *)

Module BergamotFacts.

Import Bergamot.

Section Service.

Context {E : Environment}.

#[local] Instance bergamot_extends_refl : Reflexive extends.
Proof. intros s. by repeat split. Qed.

#[local] Instance bergamot_extends_trans : Transitive extends.
Proof. intros s1 s2 s3 (? & ? & ?) (? & ? & ?). repeat split; by etrans. Qed.

Lemma bergamot_extends_emit (ev : Event) (s : State) : extends s (snd (emit ev s)).
Proof. repeat split; simpl; [done | done | by apply prefix_app_r]. Qed.

(** *** [get_translator] *)

Lemma get_translator_cached (source_lang target_lang : string)
    (cached : Translator) (s : State) :
  loaded_translators s !! Py.dash source_lang target_lang = Some cached ->
  get_translator source_lang target_lang s = (Ok cached, s).
Proof. intros H. unfold get_translator. simpl. by rewrite H. Qed.

Lemma get_translator_uncached (source_lang target_lang : string) (s : State) :
  loaded_translators s !! Py.dash source_lang target_lang = None ->
  get_translator source_lang target_lang s
  = (Ok {| source := source_lang; target := target_lang; loaded := true |},
     mkState (<[Py.dash source_lang target_lang :=
                  {| source := source_lang; target := target_lang; loaded := true |}]>
                (loaded_translators s))
             (files s) (dirs s) (world s)
             (trace s ++ [Log (LogLoadingTranslator (Py.dash source_lang target_lang));
                          Publish (Py.dash source_lang target_lang)])).
Proof.
  intros H. unfold get_translator. simpl. rewrite H.
  unfold bind, logger, emit, publish. simpl.
  rewrite lookup_insert_eq. by rewrite <- app_assoc.
Qed.

(** [get_translator] never raises, whatever the pair. *)
Lemma get_translator_total (source_lang target_lang : string) (s : State) :
  exists v s', get_translator source_lang target_lang s = (Ok v, s')
               /\ loaded_translators s' !! Py.dash source_lang target_lang = Some v
               /\ extends s s'.
Proof.
  destruct (loaded_translators s !! Py.dash source_lang target_lang)
    as [cached|] eqn:Hlook.
  - exists cached, s. by rewrite (get_translator_cached _ _ _ _ Hlook).
  - rewrite (get_translator_uncached _ _ _ Hlook). eexists _, _.
    split; [done|]. simpl. split; [apply lookup_insert_eq|].
    repeat split; simpl; [by apply insert_subseteq | done | by apply prefix_app_r].
Qed.

(** *** [download_model] *)

Ltac run_download :=
  unfold download_model, bind, try_except, call, mkdir, file_exists, write_bytes,
    logger, emit, lift, ret in *.

Lemma download_model_unregistered (source_lang target_lang : string) (s : State) :
  MODEL_REGISTRY !! (source_lang, target_lang) = None ->
  download_model source_lang target_lang s = (Ok None, s).
Proof. intros H. unfold download_model. by rewrite H. Qed.

(** The artifact is already there: the download is skipped. *)
Lemma download_model_present (source_lang target_lang url : string) (s : State) :
  MODEL_REGISTRY !! (source_lang, target_lang) = Some url ->
  is_Some (files s !! model_file source_lang target_lang) ->
  download_model source_lang target_lang s
  = (Ok (Some (model_dir source_lang target_lang)),
     mkState (loaded_translators s) (files s)
             ({[model_dir source_lang target_lang]} ∪ dirs s) (world s)
             (trace s ++ [Mkdir (model_dir source_lang target_lang);
                          Log (LogAlreadyDownloaded source_lang target_lang)])).
Proof.
  intros Hreg Hfile. run_download. rewrite Hreg. simpl.
  fold (model_dir source_lang target_lang).
  fold (model_file source_lang target_lang).
  rewrite bool_decide_eq_true_2 by done. simpl. by rewrite <- app_assoc.
Qed.

(** The artifact is missing: it is fetched, decompressed when the URL
    ends in [.gz] and written, in that order; when a step fails an error
    is logged and no file is written. *)
Lemma download_model_absent (source_lang target_lang url : string)
    (s s' : State) (r : result (option string)) :
  MODEL_REGISTRY !! (source_lang, target_lang) = Some url ->
  files s !! model_file source_lang target_lang = None ->
  download_model source_lang target_lang s = (r, s') ->
  loaded_translators s' = loaded_translators s
  /\ ((r = Ok (Some (model_dir source_lang target_lang))
       /\ (exists content,
             files s' = <[model_file source_lang target_lang := content]> (files s))
       /\ trace s' = trace s ++ download_events source_lang target_lang url)
      \/ (r = Ok None
          /\ files s' = files s
          /\ exists evs rec,
               trace s' = trace s
                          ++ Mkdir (model_dir source_lang target_lang)
                             :: Log (LogDownloading url) :: SessionGet url
                             :: evs ++ [Log rec]
               /\ download_error rec)).
Proof.
  intros Hreg Hfile Hrun. run_download. rewrite Hreg in Hrun. simpl in Hrun.
  fold (model_dir source_lang target_lang) in Hrun.
  fold (model_file source_lang target_lang) in Hrun.
  rewrite bool_decide_eq_false_2 in Hrun by (rewrite Hfile; by intros [? ?]).
  unfold download_events.
  cbn [loaded_translators files dirs world trace] in Hrun. revert Hrun.
  destruct (session_get url (world s)) as [[status|e] w1] eqn:Hget;
    cbn [loaded_translators files dirs world trace].
  - destruct (status =? 200)%nat eqn:Hstatus;
      cbn [loaded_translators files dirs world trace].
    + destruct (response_read url w1) as [[content|e] w2] eqn:Hread;
        cbn [loaded_translators files dirs world trace].
      * destruct (Py.endswith url ".gz") eqn:Hgz;
          cbn [loaded_translators files dirs world trace].
        -- destruct (gzip_decompress content) as [content'|e] eqn:Hgunzip;
             intros Hrun; simplify_eq;
             cbn [loaded_translators files dirs world trace];
             (split; [done|]); rewrite <- ?app_assoc; cbn [app].
           ++ left. eauto.
           ++ right. repeat split; try done. by eexists [_; _], _.
        -- intros Hrun. simplify_eq. cbn [loaded_translators files dirs world trace].
           split; [done|]. rewrite <- ?app_assoc. cbn [app]. left. eauto.
      * intros Hrun. simplify_eq. cbn [loaded_translators files dirs world trace].
        split; [done|]. rewrite <- ?app_assoc. cbn [app].
        right. repeat split; try done. by eexists [_], _.
    + intros Hrun. simplify_eq. cbn [loaded_translators files dirs world trace].
      split; [done|]. rewrite <- ?app_assoc. cbn [app].
      right. repeat split; try done. by eexists [], _.
  - intros Hrun. simplify_eq. cbn [loaded_translators files dirs world trace].
    split; [done|]. rewrite <- ?app_assoc. cbn [app].
    right. repeat split; try done. by eexists [], _.
Qed.

(** [download_model] never raises and never touches the translator
    cache; for a registry pair it ends with the artifact in place, or with
    an error logged and the files as they were. *)
Lemma download_model_total (source_lang target_lang : string) (s : State) :
  exists r s',
    download_model source_lang target_lang s = (Ok r, s')
    /\ loaded_translators s' = loaded_translators s
    /\ extends s s'
    /\ (is_Some (MODEL_REGISTRY !! (source_lang, target_lang)) ->
        (r = Some (model_dir source_lang target_lang)
         /\ is_Some (files s' !! model_file source_lang target_lang))
        \/ (r = None /\ files s' = files s
            /\ exists rec, download_error rec /\ Log rec ∈ trace s')).
Proof.
  destruct (MODEL_REGISTRY !! (source_lang, target_lang)) as [url|] eqn:Hreg.
  - destruct (files s !! model_file source_lang target_lang) as [c|] eqn:Hfile.
    + rewrite (download_model_present _ _ _ _ Hreg) by (rewrite Hfile; eauto).
      eexists _, _. split; [done|]. cbn [loaded_translators files trace].
      split; [done|]. split.
      * repeat split; cbn [loaded_translators files trace];
          [done | done | by apply prefix_app_r].
      * intros _. left. split; [done|]. rewrite Hfile. eauto.
    + destruct (download_model source_lang target_lang s) as [r s'] eqn:Hrun.
      destruct (download_model_absent _ _ _ _ _ _ Hreg Hfile Hrun)
        as [Hcache [(-> & (content & Hfiles) & Htrace)
                   | (-> & Hfiles & evs & rec & Htrace & Herr)]].
      * eexists _, _. split; [done|]. split; [done|]. split.
        -- repeat split; [by rewrite Hcache | | rewrite Htrace; by apply prefix_app_r].
           rewrite Hfiles. by apply insert_subseteq.
        -- intros _. left. split; [done|]. rewrite Hfiles, lookup_insert_eq. eauto.
      * eexists _, _. split; [done|]. split; [done|]. split.
        -- repeat split; [by rewrite Hcache | by rewrite Hfiles
                          | rewrite Htrace; by apply prefix_app_r].
        -- intros _. right. repeat split; try done. exists rec. split; [done|].
           rewrite Htrace, elem_of_app, !elem_of_cons, elem_of_app,
             list_elem_of_singleton. do 5 right. reflexivity.
  - rewrite (download_model_unregistered _ _ _ Hreg).
    exists None, s. repeat split; done.
Qed.

(** *** The preloader *)

Lemma bergamot_preload_pair_target (pair : string) :
  preload_pair pair =
  match preload_target pair with
  | Some (source, target) => download_model source target ;;; ret tt
  | None => ret tt
  end.
Proof.
  unfold preload_pair, preload_target.
  destruct (Py.truthy (Py.strip pair)); [|done].
  destruct (Py.contains "-" (Py.strip pair)) eqn:Hdash; [|done].
  cbn [andb].
  destruct (PyFacts.contains_split_once _ _ Hdash) as [[source target] ->].
  by destruct (bool_decide _).
Qed.

Lemma bergamot_preload_pair_skips (pair : string) (s : State) :
  preload_target pair = None -> preload_pair pair s = (Ok tt, s).
Proof. intros H. by rewrite bergamot_preload_pair_target, H. Qed.

Lemma preload_target_registered (pair source target : string) :
  preload_target pair = Some (source, target) ->
  is_Some (MODEL_REGISTRY !! (source, target)).
Proof.
  unfold preload_target. intros H.
  repeat (case_match; simplify_eq).
  match goal with
  | H : bool_decide _ = true |- _ => exact (bool_decide_eq_true_1 _ H)
  end.
Qed.

Lemma bergamot_preload_pair_ok (pair : string) (s : State) :
  exists s', preload_pair pair s = (Ok tt, s') /\ extends s s'.
Proof.
  rewrite bergamot_preload_pair_target.
  destruct (preload_target pair) as [[source target]|].
  - destruct (download_model_total source target s) as (r & s' & Hrun & _ & Hext & _).
    exists s'. unfold bind, ret. by rewrite Hrun.
  - exists s. by split.
Qed.

Lemma bergamot_preload_pair_cache (pair : string) (s : State) :
  loaded_translators (snd (preload_pair pair s)) = loaded_translators s.
Proof.
  rewrite bergamot_preload_pair_target.
  destruct (preload_target pair) as [[source target]|]; [|done].
  destruct (download_model_total source target s) as (r & s' & Hrun & Hcache & _).
  unfold bind, ret. by rewrite Hrun.
Qed.

(** The outcome of a preload token's turn: the artifact is in place, or a
    download error has been logged. *)
Lemma bergamot_preload_pair_outcome (pair source target : string) (s s' : State) :
  preload_target pair = Some (source, target) ->
  preload_pair pair s = (Ok tt, s') ->
  is_Some (files s' !! model_file source target)
  \/ exists rec, download_error rec /\ Log rec ∈ trace s'.
Proof.
  intros Htarget. rewrite bergamot_preload_pair_target, Htarget.
  destruct (download_model_total source target s)
    as (r & s1 & Hrun & _ & _ & Hcases).
  unfold bind, ret. rewrite Hrun. intros [= <-].
  destruct (Hcases (preload_target_registered _ _ _ Htarget))
    as [[_ ?] | (_ & _ & ?)]; eauto.
Qed.

Lemma for_each_preload_cache (preload : list string) (s : State) :
  loaded_translators (snd (for_each preload_pair preload s)) = loaded_translators s.
Proof.
  revert s. induction preload as [|pair preload IH]; intros s; simpl; [done|].
  unfold bind. pose proof (bergamot_preload_pair_cache pair s) as Hc.
  destruct (bergamot_preload_pair_ok pair s) as (s1 & Hrun & _).
  rewrite Hrun in *. simpl in Hc. by rewrite IH.
Qed.

Lemma bergamot_lifespan_ok (preload : list string) (s : State) :
  exists s', lifespan preload s = (Ok tt, s') /\ extends s s'
             /\ loaded_translators s' = loaded_translators s.
Proof.
  unfold lifespan, bind. cbn [logger emit mkdir].
  match goal with
  | |- context [for_each preload_pair preload ?s0] =>
      pose proof (for_each_preload_cache preload s0) as Hcache;
      destruct (MonadFacts.for_each_ok preload_pair extends
                  bergamot_preload_pair_ok preload s0) as (s1 & Hloop & Hext)
  end.
  rewrite Hloop in *. eexists. split; [done|].
  cbn [loaded_translators files trace snd] in *. split; [|done].
  destruct Hext as (Hc & Hf & Ht). cbn [loaded_translators files trace] in *.
  repeat split; cbn [loaded_translators files trace]; try done.
  etrans; [|apply prefix_app_r; exact Ht]. rewrite <- !app_assoc.
  by apply prefix_app_r.
Qed.

(** *** The engine branches and the handlers *)

Lemma translate_branch_text (text source_lang target_lang : string) :
  fst (translate_branch text source_lang target_lang)
  = "[" +:+ source_lang +:+ "->" +:+ target_lang +:+ "] " +:+ text.
Proof.
  unfold translate_branch, translate_with_bergamot, translate_with_ctranslate2.
  by destruct BERGAMOT_AVAILABLE, CTRANSLATE2_AVAILABLE.
Qed.

(** The batch loop appends the translation of each text, in order. *)
Lemma translate_loop_translations (texts : list string)
    (source_lang target_lang : string) (acc : list string) (engine : string) :
  fst (translate_loop texts source_lang target_lang acc engine)
  = acc ++ map (fun text => fst (translate_branch text source_lang target_lang)) texts.
Proof.
  revert acc engine. induction texts as [|text rest IH]; intros acc engine.
  - simpl. by rewrite app_nil_r.
  - cbn [translate_loop map].
    destruct (translate_branch text source_lang target_lang) as [translated engine'].
    rewrite IH. by rewrite <- app_assoc.
Qed.

(** [POST /translate] on a registry pair answers with the branch's text. *)
Lemma translate_response (request : TranslationRequest) (s : State) :
  is_Some (MODEL_REGISTRY !! (source_lang request, target_lang request)) ->
  exists response s',
    translate request s = (Response response, s')
    /\ translated_text response
       = fst (translate_branch (text request) (source_lang request)
                               (target_lang request))
    /\ extends s s'.
Proof.
  intros [url Hreg]. unfold translate. rewrite Hreg. unfold guarded, bind.
  destruct (get_translator_total (source_lang request) (target_lang request) s)
    as (v & s1 & -> & _ & Hext).
  destruct (translate_branch _ _ _) as [translated engine] eqn:Hbranch.
  cbn [logger emit ret]. eexists _, _. split; [done|]. split; [done|].
  etrans; [exact Hext|]. apply (bergamot_extends_emit _ s1).
Qed.

(** [POST /translate/batch] on a registry pair answers with one
    translation per text, in the order of the texts. *)
Lemma translate_batch_response (request : BatchTranslationRequest) (s : State) :
  is_Some (MODEL_REGISTRY !! (batch_source_lang request, batch_target_lang request)) ->
  exists response s',
    translate_batch request s = (Response response, s')
    /\ translations response
       = map (fun text => fst (translate_branch text (batch_source_lang request)
                                                (batch_target_lang request)))
             (texts request)
    /\ count response = length (texts request)
    /\ extends s s'.
Proof.
  intros [url Hreg]. unfold translate_batch. rewrite Hreg. unfold guarded, bind.
  destruct (get_translator_total (batch_source_lang request)
              (batch_target_lang request) s) as (v & s1 & -> & _ & Hext).
  pose proof (translate_loop_translations (texts request)
                (batch_source_lang request) (batch_target_lang request)
                [] "placeholder") as Hloop.
  destruct (translate_loop _ _ _ _ _) as [translations engine].
  cbn [fst app] in Hloop. subst translations.
  cbn [logger emit ret]. eexists _, _. split; [done|].
  cbn [Bergamot.translations count]. split; [done|].
  split; [by rewrite length_map|].
  etrans; [exact Hext|]. apply (bergamot_extends_emit _ s1).
Qed.

Lemma bergamot_translate_extends (request : TranslationRequest) (s : State) :
  extends s (snd (translate request s)).
Proof.
  destruct (MODEL_REGISTRY !! (source_lang request, target_lang request))
    as [url|] eqn:Hreg.
  - destruct (translate_response request s) as (r & s' & -> & _ & H);
      [rewrite Hreg; eauto | done].
  - unfold translate. rewrite Hreg. apply bergamot_extends_refl.
Qed.

Lemma bergamot_translate_batch_extends (request : BatchTranslationRequest) (s : State) :
  extends s (snd (translate_batch request s)).
Proof.
  destruct (MODEL_REGISTRY !! (batch_source_lang request, batch_target_lang request))
    as [url|] eqn:Hreg.
  - destruct (translate_batch_response request s) as (r & s' & -> & _ & _ & H);
      [rewrite Hreg; eauto | done].
  - unfold translate_batch. rewrite Hreg. apply bergamot_extends_refl.
Qed.

(** No operation of the service drops or changes a cache entry, a file
    or an event. *)
Lemma bergamot_step_extends (op : Operation) (s : State) : extends s (step op s).
Proof.
  destruct op as [preload|request|request| | | |src tgt];
    cbn [step snd health_check get_loaded_models];
    try apply bergamot_extends_refl.
  - destruct (bergamot_lifespan_ok preload s) as (s' & -> & H & _). done.
  - apply bergamot_translate_extends.
  - apply bergamot_translate_batch_extends.
  - unfold download_model_endpoint.
    destruct (MODEL_REGISTRY !! (src, tgt)); [|apply bergamot_extends_refl].
    destruct (download_model_total src tgt s) as (r & s' & -> & _ & H & _). done.
Qed.

Lemma bergamot_run_extends (ops : list Operation) (s : State) :
  extends s (run ops s).
Proof.
  revert s. induction ops as [|op ops IH]; intros s; simpl;
    [apply bergamot_extends_refl|].
  etrans; [apply (bergamot_step_extends op s) | apply IH].
Qed.

(** *** Callers pending at the same time *)

Lemma bergamot_acquire_all_cached (callers : nat) (source_lang target_lang : string)
    (cached : Translator) (s : State) :
  loaded_translators s !! Py.dash source_lang target_lang = Some cached ->
  acquire_all callers source_lang target_lang s = (replicate callers (Ok cached), s).
Proof.
  intros Hlook. induction callers as [|n IH]; simpl; [done|].
  by rewrite (get_translator_cached _ _ _ _ Hlook), IH.
Qed.

End Service.

End BergamotFacts.

(** ** The definitions on concrete inputs *)

Module Sanity.

Example split_examples :
  Py.split "-" "en-zh-CN" = ["en"; "zh"; "CN"]
  /\ Py.split_once "-" "en-zh-CN" = Some ("en", "zh-CN")
  /\ Py.split "," "" = [""]
  /\ Py.split "," "a,,b," = ["a"; ""; "b"; ""]
  /\ Py.strip "  en-es  " = "en-es"
  /\ Py.strip (String (ascii_of_nat 9) "en-es" +:+ String (ascii_of_nat 10) "") = "en-es"
  /\ Py.strip "" = ""
  /\ Py.endswith "model.enes.intgemm.alphas.bin.gz" ".gz" = true
  /\ Py.endswith "gz" ".gz" = false.
Proof. vm_compute. repeat split. Qed.

Example get_model_name_examples :
  HuggingFace.get_model_name "en" "ja" = Some "Helsinki-NLP/opus-mt-en-jap"
  /\ HuggingFace.get_model_name "en" "ta" = Some "Helsinki-NLP/opus-mt-en-mul"
  /\ HuggingFace.get_model_name "en" "mul" = Some "Helsinki-NLP/opus-mt-en-mul"
  /\ HuggingFace.get_model_name "ta" "en" = None
  /\ HuggingFace.get_model_name "de" "fr" = None.
Proof. vm_compute. repeat split. Qed.

Example registry_sizes :
  size HuggingFace.MODEL_MAPPING = 38
  /\ length HuggingFace.MODEL_MAPPING_items = 38
  /\ size Bergamot.MODEL_REGISTRY = 20
  /\ length Bergamot.MODEL_REGISTRY_items = 20.
Proof. vm_compute. repeat split. Qed.

Example default_preload_lists :
  HuggingFace.PRELOAD_MODELS None = ["en-hi"; "en-es"; "en-fr"; "hi-en"]
  /\ Bergamot.preload_pairs None = ["en-es"; "en-de"; "es-en"; "de-en"]
  /\ Bergamot.preload_pairs (Some "en-fr, fr-en,") = ["en-fr"; " fr-en"; ""].
Proof. vm_compute. repeat split. Qed.

Example preload_targets :
  HuggingFace.preload_target " en-ta " = Some "Helsinki-NLP/opus-mt-en-mul"
  /\ HuggingFace.preload_target "en-zh-CN" = None
  /\ HuggingFace.preload_target "" = None
  /\ Bergamot.preload_target " en-es" = Some ("en", "es")
  /\ Bergamot.preload_target "en-zh-CN" = None
  /\ Bergamot.preload_target "enes" = None.
Proof. vm_compute. repeat split. Qed.

End Sanity.

(** ** The claims of the specification *)

Module Claims.

Section Services.

Context {T : HuggingFace.Transformers} {E : Bergamot.Environment}.

(** C1, as amended: neither service has a "loading in progress" entry or
    a lock; [load_model] and [get_translator] have no suspension point, so
    callers pending at the same time run one after the other.  When the
    first caller's load succeeds it is the only load that runs and every
    caller returns that same cached value.  When a caller's load raises,
    nothing is cached, that caller alone sees the failure, and the next
    caller runs a load of its own.  [get_translator] never fails: its first
    caller publishes the entry and every caller returns it. *)
Theorem C1_pending_callers_share_only_a_successful_load :
  (forall (callers : nat) (model_name : string) (v : HuggingFace.Model * HuggingFace.Tokenizer)
          (s s1 : HuggingFace.State),
      HuggingFace.loaded_models s !! model_name = None ->
      HuggingFace.load_model model_name s = (Ok v, s1) ->
      HuggingFace.acquire_all (S callers) model_name s
      = (replicate (S callers) (Ok v), s1)
      /\ HuggingFace.load_count model_name (HuggingFace.trace s1)
         = S (HuggingFace.load_count model_name (HuggingFace.trace s)))
  /\ (forall (callers : nat) (model_name e : string) (s s1 : HuggingFace.State),
      HuggingFace.load_model model_name s = (Raise e, s1) ->
      HuggingFace.loaded_models s1 !! model_name = None
      /\ HuggingFace.acquire_all (S callers) model_name s
         = (Raise e :: fst (HuggingFace.acquire_all callers model_name s1),
            snd (HuggingFace.acquire_all callers model_name s1))
      /\ HuggingFace.load_count model_name
           (HuggingFace.trace (snd (HuggingFace.load_model model_name s1)))
         = S (S (HuggingFace.load_count model_name (HuggingFace.trace s))))
  /\ (forall (callers : nat) (source_lang target_lang : string) (s : Bergamot.State),
      Bergamot.loaded_translators s !! Py.dash source_lang target_lang = None ->
      Bergamot.acquire_all (S callers) source_lang target_lang s
      = (replicate (S callers)
           (Ok {| Bergamot.source := source_lang; Bergamot.target := target_lang;
                  Bergamot.loaded := true |}),
         snd (Bergamot.get_translator source_lang target_lang s))).
Proof.
  split; [|split].
  - intros callers model_name v s s1 Hnone Hrun. split.
    + cbn [HuggingFace.acquire_all]. rewrite Hrun.
      rewrite (HuggingFaceFacts.acquire_all_cached callers model_name v s1); [done|].
      by eapply HuggingFaceFacts.load_model_ok_cached.
    + pose proof (HuggingFaceFacts.load_model_uncached_count model_name s Hnone) as H.
      by rewrite Hrun in H.
  - intros callers model_name e s s1 Hrun.
    pose proof (HuggingFaceFacts.load_model_raise_uncached _ _ _ _ Hrun) as Hnone.
    destruct (HuggingFaceFacts.load_model_uncached_raise _ _ _ _ Hrun) as [Hcache _].
    assert (HuggingFace.loaded_models s1 !! model_name = None) as Hnone1
      by (by rewrite Hcache).
    split; [done|]. split.
    + cbn [HuggingFace.acquire_all]. rewrite Hrun.
      by destruct (HuggingFace.acquire_all callers model_name s1).
    + rewrite (HuggingFaceFacts.load_model_uncached_count model_name s1 Hnone1).
      pose proof (HuggingFaceFacts.load_model_uncached_count model_name s Hnone) as H.
      rewrite Hrun in H. cbn [snd] in H. by rewrite H.
  - intros callers source_lang target_lang s Hnone.
    cbn [Bergamot.acquire_all].
    rewrite (BergamotFacts.get_translator_uncached _ _ _ Hnone). cbn [snd].
    rewrite (BergamotFacts.bergamot_acquire_all_cached callers source_lang target_lang
               {| Bergamot.source := source_lang; Bergamot.target := target_lang;
                  Bergamot.loaded := true |}); [done|].
    cbn [Bergamot.loaded_translators]. apply lookup_insert_eq.
Qed.

(** C2, as amended: in the Hugging Face service the slow path of
    [load_model] constructs the tokenizer, then the model (fetching the
    artifact is internal to [from_pretrained]), moves it to the device, and
    then publishes the pair into the cache.  In the Bergamot service the
    slow path of [get_translator] publishes a placeholder entry without
    touching files or the network; the artifact is ensured by
    [download_model] alone, which skips the download when [model.bin]
    exists, otherwise fetches, decompresses when the URL ends in [.gz] and
    writes the file, in that order, and never writes to the cache. *)
Theorem C2_slow_path_steps_in_order :
  (forall (model_name : string) (v : HuggingFace.Model * HuggingFace.Tokenizer)
          (s s' : HuggingFace.State),
      HuggingFace.loaded_models s !! model_name = None ->
      HuggingFace.load_model model_name s = (Ok v, s') ->
      HuggingFace.loaded_models s' = <[model_name := v]> (HuggingFace.loaded_models s)
      /\ HuggingFace.trace s'
         = HuggingFace.trace s ++ HuggingFace.load_events model_name)
  /\ (forall (source_lang target_lang : string) (s : Bergamot.State),
      Bergamot.loaded_translators s !! Py.dash source_lang target_lang = None ->
      Bergamot.get_translator source_lang target_lang s
      = (Ok {| Bergamot.source := source_lang; Bergamot.target := target_lang;
               Bergamot.loaded := true |},
         Bergamot.mkState
           (<[Py.dash source_lang target_lang :=
                {| Bergamot.source := source_lang; Bergamot.target := target_lang;
                   Bergamot.loaded := true |}]> (Bergamot.loaded_translators s))
           (Bergamot.files s) (Bergamot.dirs s) (Bergamot.world s)
           (Bergamot.trace s
            ++ [Bergamot.Log (Bergamot.LogLoadingTranslator
                                (Py.dash source_lang target_lang));
                Bergamot.Publish (Py.dash source_lang target_lang)])))
  /\ (forall (source_lang target_lang url : string) (s : Bergamot.State),
      Bergamot.MODEL_REGISTRY !! (source_lang, target_lang) = Some url ->
      is_Some (Bergamot.files s !! Bergamot.model_file source_lang target_lang) ->
      Bergamot.download_model source_lang target_lang s
      = (Ok (Some (Bergamot.model_dir source_lang target_lang)),
         Bergamot.mkState (Bergamot.loaded_translators s) (Bergamot.files s)
           ({[Bergamot.model_dir source_lang target_lang]} ∪ Bergamot.dirs s)
           (Bergamot.world s)
           (Bergamot.trace s
            ++ [Bergamot.Mkdir (Bergamot.model_dir source_lang target_lang);
                Bergamot.Log (Bergamot.LogAlreadyDownloaded source_lang target_lang)])))
  /\ (forall (source_lang target_lang url : string) (s s' : Bergamot.State)
             (r : result (option string)),
      Bergamot.MODEL_REGISTRY !! (source_lang, target_lang) = Some url ->
      Bergamot.files s !! Bergamot.model_file source_lang target_lang = None ->
      Bergamot.download_model source_lang target_lang s = (r, s') ->
      Bergamot.loaded_translators s' = Bergamot.loaded_translators s
      /\ (r = Ok (Some (Bergamot.model_dir source_lang target_lang)) ->
          (exists content,
              Bergamot.files s'
              = <[Bergamot.model_file source_lang target_lang := content]>
                  (Bergamot.files s))
          /\ Bergamot.trace s'
             = Bergamot.trace s
               ++ Bergamot.download_events source_lang target_lang url)).
Proof.
  split; [|split; [|split]].
  - intros model_name v s s' Hnone Hrun.
    by apply HuggingFaceFacts.load_model_uncached_ok.
  - intros source_lang target_lang s Hnone.
    by apply BergamotFacts.get_translator_uncached.
  - intros source_lang target_lang url s Hreg Hfile.
    by eapply BergamotFacts.download_model_present.
  - intros source_lang target_lang url s s' r Hreg Hfile Hrun.
    destruct (BergamotFacts.download_model_absent _ _ _ _ _ _ Hreg Hfile Hrun)
      as [Hcache [(-> & Hfiles & Htrace) | (-> & _)]].
    + by split.
    + split; [done | discriminate].
Qed.

(** C3: batch translation keeps length and order.  The Bergamot batch
    handler answers a registry pair with exactly one translation per input
    text, output [i] being the translation of input [i], and with the
    empty list for the empty list.  The Hugging Face [translate_batch]
    returns exactly the decodings of the rows the engine generated, row by
    row in the engine's order; with an engine that generates one row per
    input text its output is as long as its input, and empty for the empty
    input. *)
Theorem C3_batch_translation_keeps_length_and_order :
  (forall (request : Bergamot.BatchTranslationRequest) (s : Bergamot.State),
      is_Some (Bergamot.MODEL_REGISTRY
                 !! (Bergamot.batch_source_lang request,
                     Bergamot.batch_target_lang request)) ->
      exists response s',
        Bergamot.translate_batch request s = (Response response, s')
        /\ length (Bergamot.translations response)
           = length (Bergamot.texts request)
        /\ (forall i : nat,
              Bergamot.translations response !! i
              = (fun text =>
                   fst (Bergamot.translate_branch text
                          (Bergamot.batch_source_lang request)
                          (Bergamot.batch_target_lang request)))
                <$> Bergamot.texts request !! i)
        /\ (Bergamot.texts request = [] -> Bergamot.translations response = []))
  /\ (forall (texts outs : list string) (model : HuggingFace.Model)
             (tokenizer : HuggingFace.Tokenizer),
      HuggingFace.translate_batch texts model tokenizer = Ok outs <->
      exists inputs inputs' translated_ids,
        HuggingFace.tokenize_texts tokenizer texts = Ok inputs
        /\ HuggingFace.inputs_to_device inputs = Ok inputs'
        /\ HuggingFace.generate model inputs' = Ok translated_ids
        /\ Forall2 (fun ids out => HuggingFace.decode tokenizer ids = Ok out)
                   translated_ids outs)
  /\ (HuggingFace.row_per_input ->
      forall (texts outs : list string) (model : HuggingFace.Model)
             (tokenizer : HuggingFace.Tokenizer),
        HuggingFace.translate_batch texts model tokenizer = Ok outs ->
        length outs = length texts /\ (texts = [] -> outs = [])).
Proof.
  split; [|split].
  - intros request s Hreg.
    destruct (BergamotFacts.translate_batch_response request s Hreg)
      as (response & s' & Hrun & Htr & _ & _).
    exists response, s'. split; [done|]. rewrite Htr.
    split; [by rewrite length_map|]. split.
    + intros i. by rewrite list_lookup_fmap.
    + by intros ->.
  - intros texts outs model tokenizer.
    apply HuggingFaceFacts.translate_batch_ok.
  - intros Hrows texts outs model tokenizer Hrun.
    apply HuggingFaceFacts.translate_batch_ok in Hrun
      as (inputs & inputs' & ids & H1 & H2 & H3 & Hdec).
    assert (length outs = length texts) as Hlen.
    { rewrite <- (Forall2_length _ _ _ Hdec). by eapply Hrows. }
    split; [done|]. intros ->. by destruct outs.
Qed.


(** C5: for an identifier that is cached, acquiring returns the cached
    value and leaves the globals exactly as they were: no call to the
    outside, no cache write, no event. *)
Theorem C5_cached_identifier_takes_the_fast_path :
  (forall (model_name : string) (cached : HuggingFace.Model * HuggingFace.Tokenizer)
          (s : HuggingFace.State),
      HuggingFace.loaded_models s !! model_name = Some cached ->
      HuggingFace.load_model model_name s = (Ok cached, s))
  /\ (forall (source_lang target_lang : string) (cached : Bergamot.Translator)
             (s : Bergamot.State),
      Bergamot.loaded_translators s !! Py.dash source_lang target_lang = Some cached ->
      Bergamot.get_translator source_lang target_lang s = (Ok cached, s)).
Proof.
  split.
  - intros. by apply HuggingFaceFacts.load_model_cached.
  - intros. by apply BergamotFacts.get_translator_cached.
Qed.


(** C8: the cache only grows.  Whatever operations the service runs
    (start-up preload, translate, batch translate, health, readiness,
    listings, download), an identifier that is mapped to a value stays
    mapped to that same value. *)
Theorem C8_cache_entries_are_never_replaced :
  (forall (ops : list HuggingFace.Operation) (s : HuggingFace.State)
          (model_name : string) (v : HuggingFace.Model * HuggingFace.Tokenizer),
      HuggingFace.loaded_models s !! model_name = Some v ->
      HuggingFace.loaded_models (HuggingFace.run ops s) !! model_name = Some v)
  /\ (forall (ops : list Bergamot.Operation) (s : Bergamot.State)
             (pair_key : string) (v : Bergamot.Translator),
      Bergamot.loaded_translators s !! pair_key = Some v ->
      Bergamot.loaded_translators (Bergamot.run ops s) !! pair_key = Some v).
Proof.
  split.
  - intros ops s model_name v Hlook.
    destruct (HuggingFaceFacts.run_extends ops s) as [Hcache _].
    by eapply lookup_weaken.
  - intros ops s pair_key v Hlook.
    destruct (BergamotFacts.bergamot_run_extends ops s) as (Hcache & _).
    by eapply lookup_weaken.
Qed.

(** C9, as amended: [get_translator] never consults the registry and
    never fails.  For every two strings it returns the entry the cache
    holds under the key [source-target] after the call.  When the key was
    not cached before, that entry is [{source, target, loaded: true}] and
    the call has published it; when the key was cached before (by this
    pair or by another pair with the same concatenated key) the earlier
    entry is returned and nothing changes.  The keys of the cache are
    therefore not bounded by the registry. *)
Theorem C9_get_translator_is_total :
  forall (source_lang target_lang : string) (s : Bergamot.State),
    exists v s',
      Bergamot.get_translator source_lang target_lang s = (Ok v, s')
      /\ Bergamot.loaded_translators s' !! Py.dash source_lang target_lang = Some v
      /\ (Bergamot.loaded_translators s !! Py.dash source_lang target_lang = None ->
          v = {| Bergamot.source := source_lang; Bergamot.target := target_lang;
                 Bergamot.loaded := true |}
          /\ Bergamot.loaded_translators s'
             = <[Py.dash source_lang target_lang := v]> (Bergamot.loaded_translators s))
      /\ (forall cached,
            Bergamot.loaded_translators s !! Py.dash source_lang target_lang
            = Some cached ->
            v = cached /\ s' = s).
Proof.
  intros source_lang target_lang s.
  destruct (Bergamot.loaded_translators s !! Py.dash source_lang target_lang)
    as [cached|] eqn:Hlook.
  - exists cached, s. rewrite (BergamotFacts.get_translator_cached _ _ _ _ Hlook).
    split; [done|]. split; [done|]. split; [done|]. by intros c [= <-].
  - rewrite (BergamotFacts.get_translator_uncached _ _ _ Hlook).
    eexists _, _. split; [done|]. cbn [Bergamot.loaded_translators].
    split; [apply lookup_insert_eq|]. split; [done|]. intros ? [=].
Qed.

(** C10: the three engine branches compute the same translation.  For
    every text, source and target code, [translate_with_bergamot],
    [translate_with_ctranslate2] and the placeholder branch return the
    string [[source->target] text], so the text [POST /translate] answers
    with does not depend on which engine the process reports. *)
Theorem C10_engine_branches_agree :
  (forall text source_lang target_lang : string,
      Bergamot.translate_with_bergamot text source_lang target_lang
      = "[" +:+ source_lang +:+ "->" +:+ target_lang +:+ "] " +:+ text
      /\ Bergamot.translate_with_ctranslate2 text source_lang target_lang
         = "[" +:+ source_lang +:+ "->" +:+ target_lang +:+ "] " +:+ text
      /\ fst (Bergamot.translate_branch text source_lang target_lang)
         = "[" +:+ source_lang +:+ "->" +:+ target_lang +:+ "] " +:+ text)
  /\ (forall (request : Bergamot.TranslationRequest) (s : Bergamot.State),
      is_Some (Bergamot.MODEL_REGISTRY
                 !! (Bergamot.source_lang request, Bergamot.target_lang request)) ->
      exists response s',
        Bergamot.translate request s = (Response response, s')
        /\ Bergamot.translated_text response
           = "[" +:+ Bergamot.source_lang request +:+ "->"
             +:+ Bergamot.target_lang request +:+ "] " +:+ Bergamot.text request).
Proof.
  split.
  - intros text source_lang target_lang.
    split; [done|]. split; [done|]. apply BergamotFacts.translate_branch_text.
  - intros request s Hreg.
    destruct (BergamotFacts.translate_response request s Hreg)
      as (response & s' & Hrun & Htext & _).
    exists response, s'. split; [done|].
    by rewrite Htext, BergamotFacts.translate_branch_text.
Qed.

End Services.

End Claims.

(** ** The claims on concrete runs *)

Module Scenarios.

Import Stub.

(** Three callers for an uncached identifier when the network is up; two
    callers when the first fetch fails; three callers of
    [get_translator]. *)
Lemma C1_witness :
  (HuggingFace.acquire_all 3 "M1" (Stub.huggingface_cold 0)
   = (replicate 3 (Ok ("model:M1", "tokenizer:M1")),
      snd (HuggingFace.load_model "M1" (Stub.huggingface_cold 0)))
   /\ HuggingFace.load_count "M1"
        (HuggingFace.trace (snd (HuggingFace.load_model "M1" (Stub.huggingface_cold 0))))
      = 1)
  /\ (HuggingFace.acquire_all 2 "M1" (Stub.huggingface_cold 1)
      = ([Raise "connection error"; Ok ("model:M1", "tokenizer:M1")],
         snd (HuggingFace.acquire_all 2 "M1" (Stub.huggingface_cold 1))))
  /\ Bergamot.acquire_all 3 "en" "es" (Stub.bergamot_cold 0)
     = (replicate 3 (Ok {| Bergamot.source := "en"; Bergamot.target := "es";
                           Bergamot.loaded := true |}),
        snd (Bergamot.get_translator "en" "es" (Stub.bergamot_cold 0))).
Proof.
  pose proof (@Claims.C1_pending_callers_share_only_a_successful_load
                Stub.transformers Stub.environment) as (Hok & Hraise & Hbergamot).
  split; [|split].
  - apply (Hok 2 "M1" ("model:M1", "tokenizer:M1") (Stub.huggingface_cold 0)
             (snd (HuggingFace.load_model "M1" (Stub.huggingface_cold 0))));
      vm_compute; reflexivity.
  - destruct (Hraise 1 "M1" "connection error" (Stub.huggingface_cold 1)
                (snd (HuggingFace.load_model "M1" (Stub.huggingface_cold 1))))
      as (_ & Hall & _); [vm_compute; reflexivity|].
    rewrite Hall. vm_compute. reflexivity.
  - apply (Hbergamot 2 "en" "es" (Stub.bergamot_cold 0)). vm_compute. reflexivity.
Defined.

(** The claim fails when the first load raises: two callers pending on the
    uncached identifier [M1] run two loads, and they do not see the same
    outcome. *)
Lemma C1_counterexample :
  HuggingFace.loaded_models (Stub.huggingface_cold 1) !! "M1" = None
  /\ fst (HuggingFace.acquire_all 2 "M1" (Stub.huggingface_cold 1))
     = [Raise "connection error"; Ok ("model:M1", "tokenizer:M1")]
  /\ HuggingFace.load_count "M1"
       (HuggingFace.trace (snd (HuggingFace.acquire_all 2 "M1" (Stub.huggingface_cold 1))))
     = 2.
Proof. vm_compute. repeat split. Qed.

(** A cold load of [M1]; a cold [get_translator]; a download on an empty
    cache directory, and the same download again once the artifact is
    there. *)
Lemma C2_witness :
  HuggingFace.trace (snd (HuggingFace.load_model "M1" (Stub.huggingface_cold 0)))
  = [] ++ HuggingFace.load_events "M1"
  /\ Bergamot.trace (snd (Bergamot.get_translator "en" "es" (Stub.bergamot_cold 0)))
     = [] ++ [Bergamot.Log (Bergamot.LogLoadingTranslator "en-es");
              Bergamot.Publish "en-es"]
  /\ Bergamot.trace (snd (Bergamot.download_model "en" "de" (Stub.bergamot_cold 0)))
     = [] ++ Bergamot.download_events "en" "de"
               (Bergamot.bucket +:+ "ende/model.ende.intgemm.alphas.bin.gz")
  /\ fst (Bergamot.download_model "en" "de"
            (snd (Bergamot.download_model "en" "de" (Stub.bergamot_cold 0))))
     = Ok (Some "/app/models/en-de").
Proof.
  pose proof (@Claims.C2_slow_path_steps_in_order Stub.transformers Stub.environment)
    as (Hload & Hget & Hpresent & Habsent).
  split; [|split; [|split]].
  - apply (Hload "M1" ("model:M1", "tokenizer:M1") (Stub.huggingface_cold 0)
             (snd (HuggingFace.load_model "M1" (Stub.huggingface_cold 0))));
      vm_compute; reflexivity.
  - rewrite (Hget "en" "es" (Stub.bergamot_cold 0)); vm_compute; reflexivity.
  - apply (Habsent "en" "de"
             (Bergamot.bucket +:+ "ende/model.ende.intgemm.alphas.bin.gz")
             (Stub.bergamot_cold 0)
             (snd (Bergamot.download_model "en" "de" (Stub.bergamot_cold 0)))
             (Ok (Some "/app/models/en-de")));
      vm_compute; reflexivity.
  - rewrite (Hpresent "en" "de"
               (Bergamot.bucket +:+ "ende/model.ende.intgemm.alphas.bin.gz")
               (snd (Bergamot.download_model "en" "de" (Stub.bergamot_cold 0))));
      vm_compute; eauto.
Defined.

(** The claim fails on the Bergamot request path: a first translation
    request for [(en, es)] on an empty cache directory publishes the cache
    entry [en-es] although no artifact step ran: nothing was fetched and
    no [model.bin] exists. *)
Lemma C2_counterexample :
  let request := {| Bergamot.text := "hello"; Bergamot.source_lang := "en";
                    Bergamot.target_lang := "es" |} in
  fst (Bergamot.translate request (Stub.bergamot_cold 0))
  = Response {| Bergamot.translated_text := "[en->es] hello";
                Bergamot.resp_source_lang := "en";
                Bergamot.resp_target_lang := "es";
                Bergamot.engine := "placeholder" |}
  /\ Bergamot.loaded_translators (snd (Bergamot.translate request (Stub.bergamot_cold 0)))
       !! "en-es"
     = Some {| Bergamot.source := "en"; Bergamot.target := "es";
               Bergamot.loaded := true |}
  /\ Bergamot.files (snd (Bergamot.translate request (Stub.bergamot_cold 0)))
       !! Bergamot.model_file (E := Stub.environment) "en" "es"
     = None
  /\ Bergamot.trace (snd (Bergamot.translate request (Stub.bergamot_cold 0)))
     = [Bergamot.Log (Bergamot.LogLoadingTranslator "en-es");
        Bergamot.Publish "en-es";
        Bergamot.Log (Bergamot.LogTranslated "en" "es" 5)].
Proof. vm_compute. repeat split. Qed.

(** The test double generates one row per input text. *)
Lemma stub_row_per_input : HuggingFace.row_per_input (T := Stub.transformers).
Proof.
  intros tokenizer model texts inputs inputs' ids H1 H2 H3.
  cbn in H1, H2, H3. simplify_eq. by rewrite length_map.
Defined.

(** A batch of three texts through both services. *)
Lemma C3_witness :
  (exists response s',
      Bergamot.translate_batch
        {| Bergamot.texts := ["a"; "b"; "c"]; Bergamot.batch_source_lang := "en";
           Bergamot.batch_target_lang := "es" |} (Stub.bergamot_cold 0)
      = (Response response, s')
      /\ length (Bergamot.translations response) = 3)
  /\ HuggingFace.translate_batch (T := Stub.transformers) ["a"; "b"; "c"] "m" "t"
     = Ok ["m>a"; "m>b"; "m>c"]
  /\ length ["m>a"; "m>b"; "m>c"] = length ["a"; "b"; "c"].
Proof.
  pose proof (@Claims.C3_batch_translation_keeps_length_and_order
                Stub.transformers Stub.environment) as (Hbergamot & Hiff & Hrows).
  split; [|split].
  - destruct (Hbergamot
                {| Bergamot.texts := ["a"; "b"; "c"]; Bergamot.batch_source_lang := "en";
                   Bergamot.batch_target_lang := "es" |} (Stub.bergamot_cold 0))
      as (response & s' & Hrun & Hlen & _); [vm_compute; eauto|].
    exists response, s'. split; [exact Hrun | exact Hlen].
  - apply (Hiff ["a"; "b"; "c"] ["m>a"; "m>b"; "m>c"] "m" "t").
    exists ["a"; "b"; "c"], ["a"; "b"; "c"], ["m>a"; "m>b"; "m>c"].
    repeat split; repeat constructor.
  - apply (Hrows stub_row_per_input ["a"; "b"; "c"] ["m>a"; "m>b"; "m>c"] "m" "t").
    vm_compute. reflexivity.
Defined.


(** A second acquire after a successful load. *)
Lemma C5_witness :
  HuggingFace.load_model "M1"
    (snd (HuggingFace.load_model "M1" (Stub.huggingface_cold 0)))
  = (Ok ("model:M1", "tokenizer:M1"),
     snd (HuggingFace.load_model "M1" (Stub.huggingface_cold 0)))
  /\ Bergamot.get_translator "en" "es"
       (snd (Bergamot.get_translator "en" "es" (Stub.bergamot_cold 0)))
     = (Ok {| Bergamot.source := "en"; Bergamot.target := "es";
              Bergamot.loaded := true |},
        snd (Bergamot.get_translator "en" "es" (Stub.bergamot_cold 0))).
Proof.
  pose proof (@Claims.C5_cached_identifier_takes_the_fast_path
                Stub.transformers Stub.environment) as (Hload & Hget).
  split.
  - apply (Hload "M1"). vm_compute. reflexivity.
  - apply (Hget "en" "es"). vm_compute. reflexivity.
Defined.



(** The scenario of the specification: one invalid pair and two valid
    pairs leave the two valid pairs loaded. *)
Example preload_one_invalid_two_valid :
  let s' := snd (HuggingFace.lifespan ["en-hi"; "xx-yy"; "en-es"]
                   (Stub.huggingface_cold 0)) in
  HuggingFace.loaded_models s' !! "Helsinki-NLP/opus-mt-en-hi"
  = Some ("model:Helsinki-NLP/opus-mt-en-hi", "tokenizer:Helsinki-NLP/opus-mt-en-hi")
  /\ HuggingFace.loaded_models s' !! "Helsinki-NLP/opus-mt-en-es"
     = Some ("model:Helsinki-NLP/opus-mt-en-es", "tokenizer:Helsinki-NLP/opus-mt-en-es")
  /\ size (HuggingFace.loaded_models s') = 2.
Proof. vm_compute. repeat split. Qed.

(** A cached entry survives a failing translation, a preload, a readiness
    probe and the listings. *)
Lemma C8_witness :
  let s := snd (HuggingFace.load_model "M1" (Stub.huggingface_cold 1)) in
  let s := snd (HuggingFace.load_model "M1" s) in
  HuggingFace.loaded_models
    (HuggingFace.run
       [HuggingFace.OpTranslate
          {| HuggingFace.text := "hello"; HuggingFace.source_lang := "en";
             HuggingFace.target_lang := "es" |};
        HuggingFace.OpLifespan ["en-hi"; "en-ta"];
        HuggingFace.OpReadiness; HuggingFace.OpModels] s) !! "M1"
  = Some ("model:M1", "tokenizer:M1")
  /\ let b := snd (Bergamot.get_translator "en" "es" (Stub.bergamot_cold 0)) in
     Bergamot.loaded_translators
       (Bergamot.run
          [Bergamot.OpLifespan ["en-es"];
           Bergamot.OpTranslate
             {| Bergamot.text := "hello"; Bergamot.source_lang := "en";
                Bergamot.target_lang := "de" |};
           Bergamot.OpDownload "de" "en"; Bergamot.OpModels] b) !! "en-es"
     = Some {| Bergamot.source := "en"; Bergamot.target := "es";
               Bergamot.loaded := true |}.
Proof.
  pose proof (@Claims.C8_cache_entries_are_never_replaced
                Stub.transformers Stub.environment) as (Hhf & Hbergamot).
  split.
  - apply Hhf. vm_compute. reflexivity.
  - apply Hbergamot. vm_compute. reflexivity.
Defined.

(** [get_translator] on a pair that is not in the registry. *)
Lemma C9_witness :
  Bergamot.MODEL_REGISTRY !! ("xx", "yy") = None
  /\ exists v s',
       Bergamot.get_translator "xx" "yy" (Stub.bergamot_cold 0) = (Ok v, s')
       /\ Bergamot.loaded_translators s' !! "xx-yy" = Some v
       /\ v = {| Bergamot.source := "xx"; Bergamot.target := "yy";
                 Bergamot.loaded := true |}.
Proof.
  split; [vm_compute; reflexivity|].
  destruct (@Claims.C9_get_translator_is_total Stub.environment "xx" "yy"
              (Stub.bergamot_cold 0)) as (v & s' & Hrun & Hlook & Hfresh & _).
  exists v, s'. split; [exact Hrun|]. split; [exact Hlook|].
  apply Hfresh. vm_compute. reflexivity.
Defined.

(** The claim fails when two pairs share their concatenated key:
    [(pt-pt, br)] and [(pt, pt-br)] both use [pt-pt-br].  Once the first
    is cached, [get_translator("pt", "pt-br")] returns the entry of the
    first and publishes no entry with source [pt] and target [pt-br]. *)
Lemma C9_counterexample :
  let s1 := snd (Bergamot.get_translator "pt-pt" "br" (Stub.bergamot_cold 0)) in
  fst (Bergamot.get_translator "pt" "pt-br" s1)
  = Ok {| Bergamot.source := "pt-pt"; Bergamot.target := "br";
          Bergamot.loaded := true |}
  /\ Bergamot.loaded_translators (snd (Bergamot.get_translator "pt" "pt-br" s1))
       !! Py.dash "pt" "pt-br"
     <> Some {| Bergamot.source := "pt"; Bergamot.target := "pt-br";
                Bergamot.loaded := true |}
  /\ size (Bergamot.loaded_translators (snd (Bergamot.get_translator "pt" "pt-br" s1)))
     = 1.
Proof. vm_compute. repeat split. discriminate. Qed.

(** A translation request for a registry pair. *)
Lemma C10_witness :
  exists response s',
    Bergamot.translate
      {| Bergamot.text := "hello"; Bergamot.source_lang := "en";
         Bergamot.target_lang := "es" |} (Stub.bergamot_cold 0)
    = (Response response, s')
    /\ Bergamot.translated_text response = "[en->es] hello".
Proof.
  pose proof (@Claims.C10_engine_branches_agree Stub.environment) as (_ & Hhandler).
  apply (Hhandler {| Bergamot.text := "hello"; Bergamot.source_lang := "en";
                     Bergamot.target_lang := "es" |} (Stub.bergamot_cold 0)).
  vm_compute. eauto.
Defined.

End Scenarios.

(** * Further properties of the services *)

(** ** Keys built from codes, and their parsing *)

Module KeyFacts.

Lemma split_nonempty (sep : ascii) (s : string) : Py.split sep s <> [].
Proof.
  destruct s as [|c s]; simpl; [done|].
  destruct (Ascii.eqb c sep); [done|]. by destruct (Py.split sep s).
Qed.

(** Splitting a string that has a separator in the middle gives the
    pieces of the left part followed by the pieces of the right part. *)
Lemma split_app (sep : ascii) (s1 s2 : string) :
  Py.split sep (s1 +:+ String sep s2) = Py.split sep s1 ++ Py.split sep s2.
Proof.
  induction s1 as [|c s1 IH]; simpl.
  - by rewrite Ascii.eqb_refl.
  - destruct (Ascii.eqb c sep); [by rewrite IH|].
    rewrite IH. pose proof (split_nonempty sep s1) as Hne.
    by destruct (Py.split sep s1).
Qed.

Lemma split_singleton (sep : ascii) (s a : string) :
  Py.split sep s = [a] -> s = a /\ Py.contains sep s = false.
Proof.
  revert a. induction s as [|c s IH]; intros a; simpl.
  - by intros [= <-].
  - destruct (Ascii.eqb c sep).
    + intros [= _ H]. by destruct (split_nonempty sep s).
    + destruct (Py.split sep s) as [|w ws] eqn:Hs;
        [by destruct (split_nonempty sep s)|].
      intros [= <- ->]. destruct (IH w eq_refl) as [-> ->]. done.
Qed.

Lemma split_without_separator (sep : ascii) (s : string) :
  Py.contains sep s = false -> Py.split sep s = [s].
Proof.
  induction s as [|c s IH]; simpl; [done|].
  destruct (Ascii.eqb c sep); [done|]. simpl. intros H. by rewrite (IH H).
Qed.

(** [f"{a}-{b}".split("-")] gives back [a] and [b] when neither has a
    hyphen. *)
Lemma split_dash (a b : string) :
  Py.contains "-" a = false -> Py.contains "-" b = false ->
  Py.split "-" (Py.dash a b) = [a; b].
Proof.
  intros Ha Hb. change (Py.dash a b) with (a +:+ String "-" b).
  rewrite split_app, (split_without_separator _ _ Ha),
    (split_without_separator _ _ Hb). done.
Qed.

(** A key that splits in exactly two parts is the key of those two parts
    and of no other pair. *)
Lemma dash_split_two (source target part0 part1 : string) :
  Py.split "-" (Py.dash source target) = [part0; part1] ->
  source = part0 /\ target = part1.
Proof.
  change (Py.dash source target) with (source +:+ String "-" target).
  rewrite split_app.
  pose proof (split_nonempty "-" source) as Hs.
  pose proof (split_nonempty "-" target) as Ht.
  destruct (Py.split "-" source) as [|a [|a' as']] eqn:Ha; [done| |].
  - destruct (Py.split "-" target) as [|b [|b' bs']] eqn:Hb; [done| |].
    + intros [= <- <-]. split.
      * by apply (split_singleton "-").
      * by apply (split_singleton "-").
    + simpl. intros [=].
  - destruct (Py.split "-" target) as [|b bs]; [done|].
    simpl. destruct as'; intros [=].
Qed.

(** [f"{a}-{b}".split("-", 1)] gives back [a] and [b] when [a] has no
    hyphen, whatever [b] is. *)
Lemma split_once_dash (a b : string) :
  Py.contains "-" a = false ->
  Py.split_once "-" (Py.dash a b) = Some (a, b).
Proof.
  change (Py.dash a b) with (a +:+ String "-" b).
  induction a as [|c a IH]; simpl.
  - done.
  - destruct (Ascii.eqb c "-"); [done|]. simpl. intros H. by rewrite (IH H).
Qed.

(** The cache key determines the pair when the source codes have no
    hyphen. *)
Lemma dash_inj (source1 target1 source2 target2 : string) :
  Py.contains "-" source1 = false -> Py.contains "-" source2 = false ->
  Py.dash source1 target1 = Py.dash source2 target2 ->
  source1 = source2 /\ target1 = target2.
Proof.
  intros H1 H2 Heq.
  pose proof (split_once_dash source1 target1 H1) as Ha.
  rewrite Heq, (split_once_dash source2 target2 H2) in Ha.
  by simplify_eq.
Qed.

(** A string that splits in exactly two parts is the first part, the
    separator and the second part. *)
Lemma split_two_join (sep : ascii) (s a b : string) :
  Py.split sep s = [a; b] -> s = a +:+ String sep b.
Proof.
  revert a. induction s as [|c s IH]; intros a; simpl; [done|].
  destruct (Ascii.eqb c sep) eqn:Hc.
  - intros [= <- Hs]. apply Ascii.eqb_eq in Hc. subst c.
    by destruct (split_singleton _ _ _ Hs) as [-> _].
  - destruct (Py.split sep s) as [|w ws] eqn:Hs; [done|].
    intros [= <- ->]. by rewrite (IH w eq_refl).
Qed.

Lemma split_once_join (sep : ascii) (s a b : string) :
  Py.split_once sep s = Some (a, b) ->
  s = a +:+ String sep b /\ Py.contains sep a = false.
Proof.
  revert a. induction s as [|c s IH]; intros a; simpl; [done|].
  destruct (Ascii.eqb c sep) eqn:Hc.
  - intros [= <- <-]. apply Ascii.eqb_eq in Hc. by subst c.
  - destruct (Py.split_once sep s) as [[a' b']|] eqn:Hs; [|done].
    intros [= <- <-]. destruct (IH a' eq_refl) as [-> Ha].
    simpl. by rewrite Hc, Ha.
Qed.

Lemma contains_dash (a b : string) : Py.contains "-" (Py.dash a b) = true.
Proof.
  change (Py.dash a b) with (a +:+ String "-" b).
  induction a as [|c a IH]; simpl; [done|]. by rewrite IH, orb_true_r.
Qed.

Lemma truthy_dash (a b : string) : Py.truthy (Py.dash a b) = true.
Proof.
  change (Py.dash a b) with (a +:+ String "-" b). by destruct a.
Qed.

(** X15: the key [source-target] and its parsing are a round trip as long
    as the source code has no hyphen: splitting the key at its first
    hyphen gives back the pair (and so does splitting at every hyphen when
    the target has none either), and two such pairs with the same key are
    the same pair. *)
Theorem pair_key_round_trip (source_lang target_lang : string) :
  Py.contains "-" source_lang = false ->
  Py.split_once "-" (Py.dash source_lang target_lang)
  = Some (source_lang, target_lang)
  /\ (Py.contains "-" target_lang = false ->
      Py.split "-" (Py.dash source_lang target_lang) = [source_lang; target_lang])
  /\ (forall source_lang' target_lang',
        Py.contains "-" source_lang' = false ->
        Py.dash source_lang target_lang = Py.dash source_lang' target_lang' ->
        source_lang = source_lang' /\ target_lang = target_lang').
Proof.
  intros Hsrc. split; [by apply split_once_dash | split].
  - intros Htgt. by apply split_dash.
  - intros source_lang' target_lang' Hsrc' Hkey. by eapply dash_inj.
Qed.

End KeyFacts.

(** ** The Hugging Face registry and the languages listing *)

Module ListingFacts.

Import HuggingFace.

(** Every listed pair resolves to the model it is listed with. *)
Lemma listed_pairs_resolve :
  Forall (fun pair => get_model_name (source pair) (target pair) = Some (model pair))
         get_languages.
Proof. apply (bool_decide_unpack _). by vm_compute. Qed.

(** Every registry key splits at its hyphen in exactly two parts. *)
Lemma registry_keys_split :
  Forall (fun item => exists part0 part1, Py.split "-" (fst item) = [part0; part1])
         MODEL_MAPPING_items.
Proof. unfold MODEL_MAPPING_items. repeat constructor; by eexists _, _. Qed.

(** Every identifier of the registry is a non-empty string. *)
Lemma registry_values_truthy (key model_name : string) :
  MODEL_MAPPING !! key = Some model_name -> Py.truthy model_name = true.
Proof.
  intros H. apply elem_of_list_to_map_2 in H.
  assert (Forall (fun item => Py.truthy (snd item) = true) MODEL_MAPPING_items) as Hall
    by (apply (bool_decide_unpack _); by vm_compute).
  rewrite Forall_forall in Hall. exact (Hall _ H).
Qed.

(** What [get_model_name] resolves to is an identifier of the registry. *)
Lemma get_model_name_registry (source_lang target_lang model_name : string) :
  get_model_name source_lang target_lang = Some model_name ->
  exists key, MODEL_MAPPING !! key = Some model_name.
Proof. unfold get_model_name. case_match; eauto. Qed.

Lemma get_model_name_truthy (source_lang target_lang model_name : string) :
  get_model_name source_lang target_lang = Some model_name ->
  Py.truthy model_name = true.
Proof.
  intros H. destruct (get_model_name_registry _ _ _ H) as [key Hkey].
  by eapply registry_values_truthy.
Qed.

(** X1: [GET /languages] lists exactly the pairs [get_model_name]
    resolves, each with the model it resolves to. *)
Theorem languages_listing_is_the_resolver (source_lang target_lang model_name : string) :
  get_model_name source_lang target_lang = Some model_name <->
  {| source := source_lang; target := target_lang; model := model_name |}
  ∈ get_languages.
Proof.
  split.
  - unfold get_model_name, get_languages. intros H. apply elem_of_app.
    destruct (String.eqb source_lang "en") eqn:Hsrc; cbv beta iota delta [andb] in H.
    + apply String.eqb_eq in Hsrc. subst source_lang.
      destruct (Py.mem target_lang MULTILINGUAL_TARGETS) eqn:Hmem.
      * right. apply PyFacts.mem_true in Hmem. apply list_elem_of_In, in_map_iff.
        exists target_lang. split; [|by apply list_elem_of_In].
        by rewrite H.
      * left. apply list_elem_of_omap.
        exists (Py.dash "en" target_lang, model_name).
        split; [by apply elem_of_list_to_map_2|].
        pose proof registry_keys_split as Hall. rewrite Forall_forall in Hall.
        destruct (Hall _ (elem_of_list_to_map_2 _ _ _ H)) as (p0 & p1 & Hsplit).
        cbn [fst] in Hsplit. rewrite Hsplit.
        by destruct (KeyFacts.dash_split_two _ _ _ _ Hsplit) as [<- <-].
    + left. apply list_elem_of_omap.
      exists (Py.dash source_lang target_lang, model_name).
      split; [by apply elem_of_list_to_map_2|].
      pose proof registry_keys_split as Hall. rewrite Forall_forall in Hall.
      destruct (Hall _ (elem_of_list_to_map_2 _ _ _ H)) as (p0 & p1 & Hsplit).
      cbn [fst] in Hsplit. rewrite Hsplit.
      by destruct (KeyFacts.dash_split_two _ _ _ _ Hsplit) as [<- <-].
  - intros H. pose proof listed_pairs_resolve as Hall.
    rewrite Forall_forall in Hall. exact (Hall _ H).
Qed.

End ListingFacts.

(** ** Runs of the Hugging Face service *)

Module HuggingFaceRunFacts.

Import HuggingFace HuggingFaceRuns.

Section Runs.

Context {T : Transformers}.

Ltac run_load :=
  unfold load_model, bind, call, logger, emit, publish, ret, lift in *;
  repeat (case_match; simplify_eq/=).

Lemma publish_count_app (model_name : string) (tr tr' : list Event) :
  publish_count model_name (tr ++ tr')
  = publish_count model_name tr + publish_count model_name tr'.
Proof. unfold publish_count. by rewrite filter_app, length_app. Qed.

Lemma publish_count_log (model_name : string) (r : LogRecord) :
  publish_count model_name [Log r] = 0.
Proof. unfold publish_count. by rewrite filter_cons_False by done. Qed.

Lemma publish_count_load_events (model_name name : string) :
  publish_count model_name (load_events name)
  = if bool_decide (model_name = name) then 1 else 0.
Proof.
  unfold publish_count, load_events.
  do 5 (rewrite filter_cons_False by done).
  case_bool_decide as Heq.
  - subst. rewrite filter_cons_True by done.
    by rewrite filter_cons_False by done.
  - rewrite filter_cons_False by (intros [= ->]; done).
    by rewrite filter_cons_False by done.
Qed.

Lemma publish_count_elem_of (model_name : string) (tr : list Event) :
  Publish model_name ∈ tr <-> 0 < publish_count model_name tr.
Proof.
  unfold publish_count. split.
  - intros Hin.
    assert (Publish model_name ∈ filter (fun ev => ev = Publish model_name) tr) as H
      by (by apply list_elem_of_filter).
    destruct (filter _ tr); [by apply elem_of_nil in H | simpl; lia].
  - destruct (filter _ tr) as [|ev evs] eqn:Hf; simpl; [lia|]. intros _.
    assert (ev ∈ filter (fun ev => ev = Publish model_name) tr) as H
      by (rewrite Hf; apply elem_of_cons; by left).
    apply list_elem_of_filter in H as [-> H]. done.
Qed.

(** A load that raises writes nothing to the cache, at any step. *)
Lemma load_model_raise_publishes_nothing (model_name e : string) (s s' : State) :
  load_model model_name s = (Raise e, s') ->
  forall name, publish_count name (trace s') = publish_count name (trace s).
Proof.
  intros Hrun name. run_load;
    rewrite ?publish_count_app; unfold publish_count;
    repeat (rewrite filter_cons_False by done); simpl; lia.
Qed.

Lemma emit_log_coherent (r : LogRecord) (s : State) :
  coherent s -> coherent (snd (logger r s)).
Proof.
  intros [Honce Hreg]. split; [|done].
  intros name. cbn [logger emit snd trace loaded_models].
  rewrite publish_count_app, publish_count_log, Nat.add_0_r. apply Honce.
Qed.

(** Loading an identifier of the registry keeps the cache and the events
    in agreement. *)
Lemma load_model_coherent (model_name : string) (s : State) :
  registry_identifier model_name ->
  coherent s -> coherent (snd (load_model model_name s)).
Proof.
  intros Hname [Honce Hreg].
  destruct (loaded_models s !! model_name) as [cached|] eqn:Hlook.
  { by rewrite (HuggingFaceFacts.load_model_cached _ _ _ Hlook). }
  destruct (load_model model_name s) as [[v|e] s'] eqn:Hrun; cbn [snd].
  - destruct (HuggingFaceFacts.load_model_uncached_ok _ _ _ _ Hlook Hrun)
      as [Hcache Htrace].
    split.
    + intros name. rewrite Htrace, Hcache, publish_count_app,
        publish_count_load_events, Honce.
      destruct (decide (name = model_name)) as [->|Hne].
      * rewrite (bool_decide_eq_true_2 (model_name = model_name)) by done.
        rewrite lookup_insert_eq, Hlook.
        rewrite bool_decide_eq_false_2 by (by intros [? ?]).
        by rewrite bool_decide_eq_true_2 by eauto.
      * rewrite (bool_decide_eq_false_2 (name = model_name)) by done.
        rewrite lookup_insert_ne by done. lia.
    + intros name. rewrite Hcache. destruct (decide (name = model_name)) as [->|Hne].
      * done.
      * rewrite lookup_insert_ne by done. apply Hreg.
  - destruct (HuggingFaceFacts.load_model_uncached_raise _ _ _ _ Hrun) as [Hcache _].
    split.
    + intros name. rewrite (load_model_raise_publishes_nothing _ _ _ _ Hrun).
      rewrite Hcache. apply Honce.
    + intros name. rewrite Hcache. apply Hreg.
Qed.

(** *** The outcomes of the translation handlers *)

Lemma translate_unsupported (request : TranslationRequest) (s : State) :
  get_model_name (source_lang request) (target_lang request) = None ->
  translate request s
  = (HTTPException 400
       (unsupported_detail (source_lang request) (target_lang request)), s).
Proof. intros H. unfold translate. by rewrite H. Qed.

Lemma translate_batch_endpoint_unsupported (request : BatchTranslationRequest)
    (s : State) :
  get_model_name (batch_source_lang request) (batch_target_lang request) = None ->
  translate_batch_endpoint request s
  = (HTTPException 400
       (unsupported_detail (batch_source_lang request) (batch_target_lang request)),
     s).
Proof. intros H. unfold translate_batch_endpoint. by rewrite H. Qed.

(** What [POST /translate] does for a pair that resolves, by the outcome
    of the load and of the inference. *)
Lemma translate_supported (request : TranslationRequest) (model_name : string)
    (s : State) :
  get_model_name (source_lang request) (target_lang request) = Some model_name ->
  translate request s
  = match load_model model_name s with
    | (Raise e, s1) =>
        (HTTPException 500 ("Translation failed: " +:+ e),
         mkState (loaded_models s1) (world s1)
                 (trace s1 ++ [Log (LogTranslationFailed e)]))
    | (Ok (model, tokenizer), s1) =>
        match translate_text (text request) model tokenizer with
        | Raise e =>
            (HTTPException 500 ("Translation failed: " +:+ e),
             mkState (loaded_models s1) (world s1)
                     (trace s1 ++ [Log (LogTranslationFailed e)]))
        | Ok translated =>
            (Response {| translated_text := translated;
                         resp_source_lang := source_lang request;
                         resp_target_lang := target_lang request;
                         resp_model := model_name |},
             mkState (loaded_models s1) (world s1)
                     (trace s1 ++ [Log (LogTranslated (source_lang request)
                                          (target_lang request)
                                          (String.length (text request)))]))
        end
    end.
Proof.
  intros H. unfold translate. rewrite H.
  rewrite (ListingFacts.get_model_name_truthy _ _ _ H).
  unfold guarded, bind, lift.
  destruct (load_model model_name s) as [[[model tokenizer]|e] s1]; [|done].
  by destruct (translate_text (text request) model tokenizer).
Qed.

Lemma translate_batch_endpoint_supported (request : BatchTranslationRequest)
    (model_name : string) (s : State) :
  get_model_name (batch_source_lang request) (batch_target_lang request)
  = Some model_name ->
  translate_batch_endpoint request s
  = match load_model model_name s with
    | (Raise e, s1) =>
        (HTTPException 500 ("Batch translation failed: " +:+ e),
         mkState (loaded_models s1) (world s1)
                 (trace s1 ++ [Log (LogBatchFailed e)]))
    | (Ok (model, tokenizer), s1) =>
        match translate_batch (texts request) model tokenizer with
        | Raise e =>
            (HTTPException 500 ("Batch translation failed: " +:+ e),
             mkState (loaded_models s1) (world s1)
                     (trace s1 ++ [Log (LogBatchFailed e)]))
        | Ok outs =>
            (Response {| translations := outs;
                         bresp_source_lang := batch_source_lang request;
                         bresp_target_lang := batch_target_lang request;
                         bresp_model := model_name;
                         count := length outs |},
             mkState (loaded_models s1) (world s1)
                     (trace s1 ++ [Log (LogBatchTranslated (length (texts request))
                                          (batch_source_lang request)
                                          (batch_target_lang request))]))
        end
    end.
Proof.
  intros H. unfold translate_batch_endpoint. rewrite H.
  rewrite (ListingFacts.get_model_name_truthy _ _ _ H).
  unfold guarded, bind, lift.
  destruct (load_model model_name s) as [[[model tokenizer]|e] s1]; [|done].
  by destruct (translate_batch (texts request) model tokenizer).
Qed.

(** X2: the translation handlers answer 400 exactly for the pairs that do
    not resolve, and such a request leaves the globals as they were:
    nothing is loaded and nothing is logged. *)
Theorem unsupported_pair_is_the_only_400 :
  (forall (request : TranslationRequest) (s : State),
      ((exists detail, fst (translate request s) = HTTPException 400 detail)
       <-> get_model_name (source_lang request) (target_lang request) = None)
      /\ (get_model_name (source_lang request) (target_lang request) = None ->
          snd (translate request s) = s))
  /\ (forall (request : BatchTranslationRequest) (s : State),
      ((exists detail,
           fst (translate_batch_endpoint request s) = HTTPException 400 detail)
       <-> get_model_name (batch_source_lang request) (batch_target_lang request)
           = None)
      /\ (get_model_name (batch_source_lang request) (batch_target_lang request)
          = None ->
          snd (translate_batch_endpoint request s) = s)).
Proof.
  split.
  - intros request s. split; [split|].
    + intros [detail H].
      destruct (get_model_name (source_lang request) (target_lang request))
        as [name|] eqn:Hname; [exfalso|done].
      rewrite (translate_supported _ _ _ Hname) in H.
      destruct (load_model name s) as [[[model tokenizer]|e] s1]; [|discriminate].
      by destruct (translate_text (text request) model tokenizer).
    + intros H. rewrite (translate_unsupported _ _ H). eauto.
    + intros H. by rewrite (translate_unsupported _ _ H).
  - intros request s. split; [split|].
    + intros [detail H].
      destruct (get_model_name (batch_source_lang request)
                  (batch_target_lang request)) as [name|] eqn:Hname; [exfalso|done].
      rewrite (translate_batch_endpoint_supported _ _ _ Hname) in H.
      destruct (load_model name s) as [[[model tokenizer]|e] s1]; [|discriminate].
      by destruct (translate_batch (texts request) model tokenizer).
    + intros H. rewrite (translate_batch_endpoint_unsupported _ _ H). eauto.
    + intros H. by rewrite (translate_batch_endpoint_unsupported _ _ H).
Qed.

(** X3: [POST /translate] on a pair that resolves.  When the load raises
    the answer is 500 with the cause in the detail, the failure is the
    last event and the cache is as it was.  When the load succeeds and
    inference raises, the answer is 500 as well and the model stays
    cached.  Otherwise the answer carries the engine's text and the
    resolved identifier, and the model is cached. *)
Theorem translate_outcomes (request : TranslationRequest) (model_name : string)
    (s : State) :
  get_model_name (source_lang request) (target_lang request) = Some model_name ->
  (forall e s1,
      load_model model_name s = (Raise e, s1) ->
      translate request s
      = (HTTPException 500 ("Translation failed: " +:+ e),
         mkState (loaded_models s) (world s1)
                 (trace s1 ++ [Log (LogTranslationFailed e)])))
  /\ (forall model tokenizer s1 e,
      load_model model_name s = (Ok (model, tokenizer), s1) ->
      translate_text (text request) model tokenizer = Raise e ->
      translate request s
      = (HTTPException 500 ("Translation failed: " +:+ e),
         mkState (loaded_models s1) (world s1)
                 (trace s1 ++ [Log (LogTranslationFailed e)]))
      /\ loaded_models s1 !! model_name = Some (model, tokenizer))
  /\ (forall model tokenizer s1 translated,
      load_model model_name s = (Ok (model, tokenizer), s1) ->
      translate_text (text request) model tokenizer = Ok translated ->
      translate request s
      = (Response {| translated_text := translated;
                     resp_source_lang := source_lang request;
                     resp_target_lang := target_lang request;
                     resp_model := model_name |},
         mkState (loaded_models s1) (world s1)
                 (trace s1 ++ [Log (LogTranslated (source_lang request)
                                      (target_lang request)
                                      (String.length (text request)))]))
      /\ loaded_models s1 !! model_name = Some (model, tokenizer)).
Proof.
  intros Hname. split; [|split].
  - intros e s1 Hload. rewrite (translate_supported _ _ _ Hname), Hload.
    by destruct (HuggingFaceFacts.load_model_uncached_raise _ _ _ _ Hload) as [-> _].
  - intros model tokenizer s1 e Hload Htext.
    rewrite (translate_supported _ _ _ Hname), Hload, Htext.
    split; [done | by eapply HuggingFaceFacts.load_model_ok_cached].
  - intros model tokenizer s1 translated Hload Htext.
    rewrite (translate_supported _ _ _ Hname), Hload, Htext.
    split; [done | by eapply HuggingFaceFacts.load_model_ok_cached].
Qed.

(** X4: [POST /translate/batch] on a pair that resolves.  A failed load
    or a failed inference gives 500 with the cause in the detail; a
    successful answer has the engine's translations, their number as
    [count], and the resolved identifier; with an engine that returns one
    row per input, [count] is the number of texts sent. *)
Theorem translate_batch_endpoint_outcomes (request : BatchTranslationRequest)
    (model_name : string) (s : State) :
  get_model_name (batch_source_lang request) (batch_target_lang request)
  = Some model_name ->
  (forall e s1,
      load_model model_name s = (Raise e, s1) ->
      translate_batch_endpoint request s
      = (HTTPException 500 ("Batch translation failed: " +:+ e),
         mkState (loaded_models s) (world s1)
                 (trace s1 ++ [Log (LogBatchFailed e)])))
  /\ (forall model tokenizer s1 e,
      load_model model_name s = (Ok (model, tokenizer), s1) ->
      translate_batch (texts request) model tokenizer = Raise e ->
      translate_batch_endpoint request s
      = (HTTPException 500 ("Batch translation failed: " +:+ e),
         mkState (loaded_models s1) (world s1)
                 (trace s1 ++ [Log (LogBatchFailed e)]))
      /\ loaded_models s1 !! model_name = Some (model, tokenizer))
  /\ (forall model tokenizer s1 outs,
      load_model model_name s = (Ok (model, tokenizer), s1) ->
      translate_batch (texts request) model tokenizer = Ok outs ->
      translate_batch_endpoint request s
      = (Response {| translations := outs;
                     bresp_source_lang := batch_source_lang request;
                     bresp_target_lang := batch_target_lang request;
                     bresp_model := model_name;
                     count := length outs |},
         mkState (loaded_models s1) (world s1)
                 (trace s1 ++ [Log (LogBatchTranslated (length (texts request))
                                      (batch_source_lang request)
                                      (batch_target_lang request))]))
      /\ (row_per_input -> length outs = length (texts request))).
Proof.
  intros Hname. split; [|split].
  - intros e s1 Hload.
    rewrite (translate_batch_endpoint_supported _ _ _ Hname), Hload.
    by destruct (HuggingFaceFacts.load_model_uncached_raise _ _ _ _ Hload) as [-> _].
  - intros model tokenizer s1 e Hload Hbatch.
    rewrite (translate_batch_endpoint_supported _ _ _ Hname), Hload, Hbatch.
    split; [done | by eapply HuggingFaceFacts.load_model_ok_cached].
  - intros model tokenizer s1 outs Hload Hbatch.
    rewrite (translate_batch_endpoint_supported _ _ _ Hname), Hload, Hbatch.
    split; [done|]. intros Hrows.
    apply HuggingFaceFacts.translate_batch_ok in Hbatch
      as (inputs & inputs' & ids & H1 & H2 & H3 & Hdec).
    rewrite <- (Forall2_length _ _ _ Hdec). by eapply Hrows.
Qed.


(** *** A cached model serves later requests *)

Lemma load_count_log (model_name : string) (r : LogRecord) :
  load_count model_name [Log r] = 0.
Proof. unfold load_count. by rewrite filter_cons_False by done. Qed.

(** X6: once [POST /translate] has answered for a pair, a later request
    for any pair that resolves to the same identifier (the same pair, or
    another target of the multilingual model) loads nothing: the cache and
    the outside world stay as they are and the load path is not
    entered. *)
Theorem answered_model_is_not_loaded_again
    (request later : TranslationRequest) (response : TranslationResponse) (s : State) :
  fst (translate request s) = Response response ->
  get_model_name (source_lang later) (target_lang later) = Some (resp_model response) ->
  let s' := snd (translate request s) in
  loaded_models (snd (translate later s')) = loaded_models s'
  /\ world (snd (translate later s')) = world s'
  /\ load_count (resp_model response) (trace (snd (translate later s')))
     = load_count (resp_model response) (trace s').
Proof.
  intros Hresp Hlater. cbv zeta.
  destruct (get_model_name (source_lang request) (target_lang request))
    as [name|] eqn:Hname;
    [|by rewrite (translate_unsupported _ _ Hname) in Hresp].
  rewrite (translate_supported _ _ _ Hname) in Hresp |- *.
  destruct (load_model name s) as [[[model tokenizer]|e] s1] eqn:Hload;
    [|discriminate].
  pose proof (HuggingFaceFacts.load_model_ok_cached _ _ _ _ Hload) as Hcached.
  destruct (translate_text (text request) model tokenizer) as [translated|e];
    [|discriminate].
  cbn [fst snd] in *. injection Hresp as <-. cbn [resp_model] in *.
  rewrite (translate_supported _ _ _ Hlater).
  rewrite (HuggingFaceFacts.load_model_cached name (model, tokenizer)) by done.
  destruct (translate_text (text later) model tokenizer);
    cbn [snd loaded_models world trace];
    rewrite HuggingFaceFacts.load_count_app, load_count_log; repeat split; lia.
Qed.

(** *** The readiness probe *)

Lemma readiness_loaded (s : State) :
  (0 < size (loaded_models s))%nat -> readiness s = (Response "ready", s).
Proof.
  intros H. unfold readiness.
  by rewrite (proj2 (Nat.ltb_lt _ _) H).
Qed.

(** X7: a readiness probe answers "ready" or 503.  After a "ready" answer
    a model is cached, and whatever the service does next, every later
    probe answers "ready" without loading or logging anything.  A 503
    answer leaves the cache empty. *)
Theorem readiness_once_ready_stays_ready (s : State) :
  (fst (readiness s) = Response "ready"
   \/ fst (readiness s) = HTTPException 503 "Service not ready")
  /\ (fst (readiness s) = Response "ready" ->
      (0 < size (loaded_models (snd (readiness s))))%nat
      /\ forall ops : list Operation,
           readiness (run ops (snd (readiness s)))
           = (Response "ready", run ops (snd (readiness s))))
  /\ (fst (readiness s) = HTTPException 503 "Service not ready" ->
      loaded_models (snd (readiness s)) = ∅).
Proof.
  assert (forall s', (0 < size (loaded_models s'))%nat ->
            forall ops, readiness (run ops s') = (Response "ready", run ops s'))
    as Hstays.
  { intros s' Hpos ops. apply readiness_loaded.
    destruct (HuggingFaceFacts.run_extends ops s') as [Hsub _].
    apply map_subseteq_size in Hsub. lia. }
  destruct (decide (0 < size (loaded_models s))%nat) as [Hpos|Hzero].
  { rewrite (readiness_loaded s Hpos). cbn [fst snd].
    split; [by left|]. split; [intros _; split; [done | by apply Hstays] | done]. }
  assert (loaded_models s = ∅) as Hempty by (apply map_size_empty_iff; lia).
  assert (readiness s
          = match MODEL_MAPPING !! "en-hi" with
            | Some model_name =>
                if Py.truthy model_name then
                  match load_model model_name s with
                  | (Ok _, s') => (Response "ready", s')
                  | (Raise e, s') =>
                      (HTTPException 503 "Service not ready",
                       snd (logger (LogReadinessFailed e) s'))
                  end
                else (HTTPException 503 "Service not ready", s)
            | None => (HTTPException 503 "Service not ready", s)
            end) as Hcold.
  { unfold readiness. by rewrite (proj2 (Nat.ltb_ge _ _)) by lia. }
  rewrite Hcold. clear Hcold.
  destruct (MODEL_MAPPING !! "en-hi") as [model_name|] eqn:Hkey;
    [|split; [by right | split; [done | done]]].
  rewrite (ListingFacts.registry_values_truthy _ _ Hkey).
  destruct (load_model model_name s) as [[v|e] s1] eqn:Hload; cbn [fst snd].
  - pose proof (HuggingFaceFacts.load_model_ok_cached _ _ _ _ Hload) as Hcached.
    assert (0 < size (loaded_models s1))%nat as Hpos.
    { destruct (decide (size (loaded_models s1) = 0)) as [Hz|]; [|lia].
      apply map_size_empty_iff in Hz. by rewrite Hz in Hcached. }
    split; [by left|]. split; [intros _; split; [done | by apply Hstays] | done].
  - split; [by right|]. split; [done|]. intros _.
    cbn [logger emit snd loaded_models].
    by destruct (HuggingFaceFacts.load_model_uncached_raise _ _ _ _ Hload) as [-> _].
Qed.

(** *** What every run keeps *)

Lemma log_coherent (r : LogRecord) (s : State) :
  coherent s ->
  coherent (mkState (loaded_models s) (world s) (trace s ++ [Log r])).
Proof. apply (emit_log_coherent r s). Qed.

Lemma translate_coherent (request : TranslationRequest) (s : State) :
  coherent s -> coherent (snd (translate request s)).
Proof.
  intros H.
  destruct (get_model_name (source_lang request) (target_lang request))
    as [name|] eqn:Hname; [|by rewrite (translate_unsupported _ _ Hname)].
  rewrite (translate_supported _ _ _ Hname).
  pose proof (load_model_coherent name s
                (ListingFacts.get_model_name_registry _ _ _ Hname) H) as Hload.
  destruct (load_model name s) as [[[model tokenizer]|e] s1]; cbn [snd] in *.
  - destruct (translate_text _ _ _); by apply log_coherent.
  - by apply log_coherent.
Qed.

Lemma translate_batch_endpoint_coherent (request : BatchTranslationRequest)
    (s : State) :
  coherent s -> coherent (snd (translate_batch_endpoint request s)).
Proof.
  intros H.
  destruct (get_model_name (batch_source_lang request) (batch_target_lang request))
    as [name|] eqn:Hname;
    [|by rewrite (translate_batch_endpoint_unsupported _ _ Hname)].
  rewrite (translate_batch_endpoint_supported _ _ _ Hname).
  pose proof (load_model_coherent name s
                (ListingFacts.get_model_name_registry _ _ _ Hname) H) as Hload.
  destruct (load_model name s) as [[[model tokenizer]|e] s1]; cbn [snd] in *.
  - destruct (translate_batch _ _ _); by apply log_coherent.
  - by apply log_coherent.
Qed.

Lemma readiness_coherent (s : State) :
  coherent s -> coherent (snd (readiness s)).
Proof.
  intros H. unfold readiness.
  destruct (0 <? size (loaded_models s))%nat; [done|].
  destruct (MODEL_MAPPING !! "en-hi") as [model_name|] eqn:Hkey; [|done].
  destruct (Py.truthy model_name); [|done].
  assert (registry_identifier model_name) as Hid by (by exists "en-hi").
  pose proof (load_model_coherent model_name s Hid H) as Hload.
  destruct (load_model model_name s) as [[v|e] s1]; cbn [snd] in *; [done|].
  by apply emit_log_coherent.
Qed.

Lemma preload_target_registry (pair model_name : string) :
  preload_target pair = Some model_name -> registry_identifier model_name.
Proof.
  unfold preload_target. intros H. repeat (case_match; simplify_eq).
  by eapply ListingFacts.get_model_name_registry.
Qed.

Lemma preload_pair_coherent (pair : string) (s : State) :
  exists s', preload_pair pair s = (Ok tt, s') /\ (coherent s -> coherent s').
Proof.
  destruct (preload_target pair) as [model_name|] eqn:Htarget.
  - pose proof (load_model_coherent model_name s
                  (preload_target_registry _ _ Htarget)) as Hload.
    destruct (load_model model_name s) as [[v|e] s1] eqn:Hrun; cbn [snd] in Hload.
    + rewrite (HuggingFaceFacts.preload_pair_loaded _ _ _ _ _ Htarget Hrun). eauto.
    + rewrite (HuggingFaceFacts.preload_pair_failed _ _ _ _ _ Htarget Hrun).
      eexists. split; [done|]. intros H. by apply log_coherent, Hload.
  - rewrite (HuggingFaceFacts.preload_pair_skips _ _ Htarget). eauto.
Qed.

Lemma lifespan_coherent (preload : list string) (s : State) :
  coherent s -> coherent (snd (lifespan preload s)).
Proof.
  intros H. unfold lifespan, bind. cbn [logger emit].
  match goal with
  | |- context [for_each preload_pair preload ?s0] =>
      destruct (@MonadFacts.for_each_ok _ _ preload_pair
                  (fun s s' => coherent s -> coherent s')
                  (fun s H => H) (fun s1 s2 s3 H12 H23 H => H23 (H12 H))
                  preload_pair_coherent preload s0) as (s1 & -> & Hloop)
  end.
  cbn [snd]. apply log_coherent, Hloop. by apply log_coherent.
Qed.

Lemma step_coherent (op : Operation) (s : State) :
  coherent s -> coherent (step op s).
Proof.
  destruct op as [preload|request|request| | | |]; cbn [step]; try done.
  - apply lifespan_coherent.
  - apply translate_coherent.
  - apply translate_batch_endpoint_coherent.
  - apply readiness_coherent.
Qed.

Lemma run_coherent (ops : list Operation) (s : State) :
  coherent s -> coherent (run ops s).
Proof.
  revert s. induction ops as [|op ops IH]; intros s H; simpl; [done|].
  by apply IH, step_coherent.
Qed.

Lemma initial_coherent (w : World) : coherent (initial w).
Proof.
  split.
  - intros name. cbn. rewrite lookup_empty.
    by rewrite bool_decide_eq_false_2 by (by intros [? ?]).
  - intros name. cbn. rewrite lookup_empty. by intros [? ?].
Qed.

(** X8: in every run of the service from a cold start, each identifier
    is written to the cache at most once, the cached identifiers are
    exactly the ones that were written, they are all identifiers of the
    registry, and so the cache never holds more than the 38 models of the
    registry. *)
Theorem runs_publish_each_registry_model_once (ops : list Operation) (w : World)
    (model_name : string) :
  let s := run ops (initial w) in
  (publish_count model_name (trace s) <= 1)%nat
  /\ (is_Some (loaded_models s !! model_name) <-> Publish model_name ∈ trace s)
  /\ (is_Some (loaded_models s !! model_name) -> registry_identifier model_name)
  /\ (size (loaded_models s) <= 38)%nat.
Proof.
  cbv zeta. destruct (run_coherent ops (initial w) (initial_coherent w))
    as [Honce Hreg].
  split; [|split; [|split]].
  - rewrite Honce. case_bool_decide; lia.
  - rewrite publish_count_elem_of, Honce. case_bool_decide; [|split; [done | lia]].
    split; [lia | done].
  - apply Hreg.
  - rewrite <- size_dom.
    transitivity (size (list_to_set (map snd MODEL_MAPPING_items) : gset string)).
    + apply subseteq_size. intros name Hin. apply elem_of_list_to_set.
      apply elem_of_dom in Hin. destruct (Hreg name Hin) as [key Hkey].
      apply elem_of_list_to_map_2 in Hkey.
      apply list_elem_of_In, in_map_iff. exists (key, name).
      split; [done | by apply list_elem_of_In].
    + by vm_compute.
Qed.

End Runs.

End HuggingFaceRunFacts.

(** ** Runs of the Bergamot service *)

Module BergamotRunFacts.

Import Bergamot BergamotRuns.

Section Runs.

Context {E : Environment}.

(** The source codes of the registry have no hyphen. *)
Lemma registry_sources_plain (source_lang target_lang : string) :
  is_Some (MODEL_REGISTRY !! (source_lang, target_lang)) ->
  Py.contains "-" source_lang = false.
Proof.
  intros [url H]. apply elem_of_list_to_map_2 in H.
  assert (Forall (fun item => Py.contains "-" (fst (fst item)) = false)
                 MODEL_REGISTRY_items) as Hall
    by (apply (bool_decide_unpack _); by vm_compute).
  rewrite Forall_forall in Hall. exact (Hall _ H).
Qed.

(** [GET /languages] lists exactly the pairs of the registry. *)
Lemma listed_iff_registered (source_lang target_lang : string) :
  (source_lang, target_lang) ∈ get_languages
  <-> is_Some (MODEL_REGISTRY !! (source_lang, target_lang)).
Proof.
  unfold get_languages. split.
  - intros H. apply list_elem_of_In, in_map_iff in H as ([pair url] & Heq & Hin).
    cbn [fst] in Heq. subst pair. exists url.
    apply elem_of_list_to_map_1; [|by apply list_elem_of_In].
    apply (bool_decide_unpack _). by vm_compute.
  - intros [url H]. apply elem_of_list_to_map_2 in H.
    apply list_elem_of_In, in_map_iff. exists ((source_lang, target_lang), url).
    split; [done | by apply list_elem_of_In].
Qed.

(** *** The outcomes of the translation handlers *)

Lemma translate_unregistered (request : TranslationRequest) (s : State) :
  MODEL_REGISTRY !! (source_lang request, target_lang request) = None ->
  translate request s
  = (HTTPException 400
       (unsupported_detail (source_lang request) (target_lang request)), s).
Proof. intros H. unfold translate. by rewrite H. Qed.

Lemma translate_batch_unregistered (request : BatchTranslationRequest) (s : State) :
  MODEL_REGISTRY !! (batch_source_lang request, batch_target_lang request) = None ->
  translate_batch request s
  = (HTTPException 400
       (unsupported_detail (batch_source_lang request) (batch_target_lang request)),
     s).
Proof. intros H. unfold translate_batch. by rewrite H. Qed.

(** X9: the Bergamot translation handlers answer with a translation
    exactly for the pairs [GET /languages] lists; for any other pair they
    answer 400 and leave the globals as they were; they never answer
    500. *)
Theorem bergamot_handlers_answer_listed_pairs :
  (forall (request : TranslationRequest) (s : State),
      ((exists response, fst (translate request s) = Response response)
       <-> (source_lang request, target_lang request) ∈ get_languages)
      /\ ((source_lang request, target_lang request) ∉ get_languages ->
          translate request s
          = (HTTPException 400
               (unsupported_detail (source_lang request) (target_lang request)), s))
      /\ (forall detail, fst (translate request s) <> HTTPException 500 detail))
  /\ (forall (request : BatchTranslationRequest) (s : State),
      ((exists response, fst (translate_batch request s) = Response response)
       <-> (batch_source_lang request, batch_target_lang request) ∈ get_languages)
      /\ ((batch_source_lang request, batch_target_lang request) ∉ get_languages ->
          translate_batch request s
          = (HTTPException 400
               (unsupported_detail (batch_source_lang request)
                                   (batch_target_lang request)), s))
      /\ (forall detail, fst (translate_batch request s) <> HTTPException 500 detail)).
Proof.
  split.
  - intros request s. rewrite listed_iff_registered.
    destruct (MODEL_REGISTRY !! (source_lang request, target_lang request))
      as [url|] eqn:Hreg.
    + destruct (BergamotFacts.translate_response request s) as (r & s' & Hrun & _);
        [rewrite Hreg; eauto|].
      rewrite Hrun. cbn [fst]. split; [split; eauto|].
      split; [|done]. intros Hno. destruct Hno. eauto.
    + rewrite (translate_unregistered _ _ Hreg). cbn [fst].
      split; [split; [by intros [? ?] | by intros [? ?]]|]. split; done.
  - intros request s. rewrite listed_iff_registered.
    destruct (MODEL_REGISTRY !! (batch_source_lang request, batch_target_lang request))
      as [url|] eqn:Hreg.
    + destruct (BergamotFacts.translate_batch_response request s)
        as (r & s' & Hrun & _); [rewrite Hreg; eauto|].
      rewrite Hrun. cbn [fst]. split; [split; eauto|].
      split; [|done]. intros Hno. destruct Hno. eauto.
    + rewrite (translate_batch_unregistered _ _ Hreg). cbn [fst].
      split; [split; [by intros [? ?] | by intros [? ?]]|]. split; done.
Qed.

(** *** The engine name in the answers *)

Lemma translate_branch_engine (text source_lang target_lang : string) :
  snd (translate_branch text source_lang target_lang) = engine_label.
Proof.
  unfold translate_branch, engine_label.
  by destruct BERGAMOT_AVAILABLE, CTRANSLATE2_AVAILABLE.
Qed.

Lemma translate_loop_engine (texts : list string) (source_lang target_lang : string)
    (acc : list string) (engine : string) :
  snd (translate_loop texts source_lang target_lang acc engine)
  = match texts with [] => engine | _ => engine_label end.
Proof.
  revert acc engine. induction texts as [|text rest IH]; intros acc engine; [done|].
  cbn [translate_loop].
  pose proof (translate_branch_engine text source_lang target_lang) as Hlabel.
  destruct (translate_branch text source_lang target_lang) as [translated engine'].
  cbn [snd] in Hlabel. subst engine'. rewrite IH. by destruct rest.
Qed.


(** *** What every run keeps *)

Lemma get_translator_well_keyed (source_lang target_lang : string) (s : State) :
  is_Some (MODEL_REGISTRY !! (source_lang, target_lang)) ->
  well_keyed s -> well_keyed (snd (get_translator source_lang target_lang s)).
Proof.
  intros Hreg Hs.
  destruct (loaded_translators s !! Py.dash source_lang target_lang)
    as [cached|] eqn:Hlook.
  - by rewrite (BergamotFacts.get_translator_cached _ _ _ _ Hlook).
  - rewrite (BergamotFacts.get_translator_uncached _ _ _ Hlook).
    intros k v. cbn [snd loaded_translators].
    destruct (decide (k = Py.dash source_lang target_lang)) as [->|Hne].
    + rewrite lookup_insert_eq. by intros [= <-].
    + rewrite lookup_insert_ne by done. apply Hs.
Qed.

Lemma well_keyed_same_cache (s s' : State) :
  loaded_translators s' = loaded_translators s -> well_keyed s -> well_keyed s'.
Proof. intros Heq H k v. rewrite Heq. apply H. Qed.

Lemma bergamot_translate_well_keyed (request : TranslationRequest) (s : State) :
  well_keyed s -> well_keyed (snd (translate request s)).
Proof.
  intros H. unfold translate.
  destruct (MODEL_REGISTRY !! (source_lang request, target_lang request))
    as [url|] eqn:Hreg; [|done].
  pose proof (get_translator_well_keyed (source_lang request) (target_lang request) s
                (ltac:(rewrite Hreg; eauto)) H) as Hget.
  unfold guarded, bind.
  destruct (BergamotFacts.get_translator_total (source_lang request)
              (target_lang request) s) as (v & s1 & Hrun & _).
  rewrite Hrun in *. cbn [snd] in Hget.
  destruct (translate_branch _ _ _) as [translated engine0].
  cbn [logger emit ret snd]. by eapply well_keyed_same_cache.
Qed.

Lemma bergamot_translate_batch_well_keyed (request : BatchTranslationRequest)
    (s : State) :
  well_keyed s -> well_keyed (snd (translate_batch request s)).
Proof.
  intros H. unfold translate_batch.
  destruct (MODEL_REGISTRY !! (batch_source_lang request, batch_target_lang request))
    as [url|] eqn:Hreg; [|done].
  pose proof (get_translator_well_keyed (batch_source_lang request)
                (batch_target_lang request) s (ltac:(rewrite Hreg; eauto)) H) as Hget.
  unfold guarded, bind.
  destruct (BergamotFacts.get_translator_total (batch_source_lang request)
              (batch_target_lang request) s) as (v & s1 & Hrun & _).
  rewrite Hrun in *. cbn [snd] in Hget.
  destruct (translate_loop _ _ _ _ _) as [outs engine0].
  cbn [logger emit ret snd]. by eapply well_keyed_same_cache.
Qed.

Lemma bergamot_step_well_keyed (op : Operation) (s : State) :
  well_keyed s -> well_keyed (step op s).
Proof.
  destruct op as [preload|request|request| | | |src tgt];
    cbn [step health_check get_loaded_models snd]; try exact id.
  - destruct (BergamotFacts.bergamot_lifespan_ok preload s) as (s' & -> & _ & Hsame).
    by apply well_keyed_same_cache.
  - apply bergamot_translate_well_keyed.
  - apply bergamot_translate_batch_well_keyed.
  - unfold download_model_endpoint.
    destruct (MODEL_REGISTRY !! (src, tgt)); [|exact id].
    destruct (BergamotFacts.download_model_total src tgt s)
      as (r & s' & -> & Hsame & _). by apply well_keyed_same_cache.
Qed.

Lemma bergamot_run_well_keyed (ops : list Operation) (s : State) :
  well_keyed s -> well_keyed (run ops s).
Proof.
  revert s. induction ops as [|op ops IH]; intros s H; simpl; [done|].
  by apply IH, bergamot_step_well_keyed.
Qed.

(** X11: in every run of the service from a cold start the handlers keep
    the translator cache within the registry: every entry belongs to a
    registry pair, sits under the key of its own pair and is marked
    loaded; the cache never holds more than the 20 pairs of the registry;
    and [get_translator] on a registry pair returns the entry of that very
    pair. *)
Theorem runs_keep_translators_within_registry (ops : list Operation)
    (fs : gmap string string) (w : World) :
  let s := run ops (initial fs w) in
  (forall pair_key v,
      loaded_translators s !! pair_key = Some v ->
      is_Some (MODEL_REGISTRY !! (source v, target v))
      /\ pair_key = Py.dash (source v) (target v)
      /\ loaded v = true)
  /\ (size (loaded_translators s) <= 20)%nat
  /\ (forall source_lang target_lang,
        is_Some (MODEL_REGISTRY !! (source_lang, target_lang)) ->
        fst (get_translator source_lang target_lang s)
        = Ok {| source := source_lang; target := target_lang; loaded := true |}).
Proof.
  cbv zeta.
  assert (well_keyed (run ops (initial fs w))) as Hkeys.
  { apply bergamot_run_well_keyed. intros k v. cbn. by rewrite lookup_empty. }
  split; [exact Hkeys | split].
  - rewrite <- size_dom.
    transitivity (size (list_to_set
                          (map (fun item => Py.dash (fst (fst item)) (snd (fst item)))
                               MODEL_REGISTRY_items) : gset string)).
    + apply subseteq_size. intros k Hin. apply elem_of_list_to_set.
      apply elem_of_dom in Hin as [v Hv].
      destruct (Hkeys k v Hv) as ([url Hreg] & -> & _).
      apply elem_of_list_to_map_2 in Hreg.
      apply list_elem_of_In, in_map_iff. exists ((source v, target v), url).
      split; [done | by apply list_elem_of_In].
    + by vm_compute.
  - intros source_lang target_lang Hreg.
    destruct (loaded_translators (run ops (initial fs w))
                !! Py.dash source_lang target_lang) as [v|] eqn:Hlook.
    + rewrite (BergamotFacts.get_translator_cached _ _ _ _ Hlook). cbn [fst].
      destruct (Hkeys _ _ Hlook) as (Hv & Hkey & Hloaded).
      destruct (KeyFacts.dash_inj _ _ _ _ (registry_sources_plain _ _ Hreg)
                  (registry_sources_plain _ _ Hv) Hkey) as [Hs Ht].
      destruct v as [vs vt vl]. cbn in *. by subst.
    + by rewrite (BergamotFacts.get_translator_uncached _ _ _ Hlook).
Qed.

(** *** Downloads *)

(** X12: a download that succeeded is not repeated.  After
    [download_model] has returned the model directory, calling it again
    for the same pair returns the same directory without any request to
    the network and without touching the files. *)
Theorem download_model_is_idempotent (source_lang target_lang dir : string)
    (s s' : State) :
  download_model source_lang target_lang s = (Ok (Some dir), s') ->
  download_model source_lang target_lang s'
  = (Ok (Some dir),
     mkState (loaded_translators s') (files s')
             ({[model_dir source_lang target_lang]} ∪ dirs s') (world s')
             (trace s' ++ [Mkdir (model_dir source_lang target_lang);
                           Log (LogAlreadyDownloaded source_lang target_lang)])).
Proof.
  intros Hrun.
  destruct (MODEL_REGISTRY !! (source_lang, target_lang)) as [url|] eqn:Hreg;
    [|by rewrite (BergamotFacts.download_model_unregistered _ _ _ Hreg) in Hrun].
  destruct (BergamotFacts.download_model_total source_lang target_lang s)
    as (r & s'' & Hrun' & _ & _ & Hcases).
  rewrite Hrun in Hrun'. simplify_eq.
  destruct Hcases as [[Hdir Hfile] | [? _]]; [by rewrite Hreg; eauto | | done].
  simplify_eq. by apply (BergamotFacts.download_model_present _ _ url).
Qed.


(** *** Preload tokens *)

(** The codes of the pairs the Hugging Face service lists have no
    hyphen. *)
Lemma listed_codes_plain (source_lang target_lang model_name : string) :
  HuggingFace.get_model_name source_lang target_lang = Some model_name ->
  Py.contains "-" source_lang = false /\ Py.contains "-" target_lang = false.
Proof.
  intros H. apply ListingFacts.languages_listing_is_the_resolver in H.
  assert (Forall (fun pair =>
                    Py.contains "-" (HuggingFace.source pair) = false
                    /\ Py.contains "-" (HuggingFace.target pair) = false)
                 HuggingFace.get_languages) as Hall
    by (apply (bool_decide_unpack _); by vm_compute).
  rewrite Forall_forall in Hall. exact (Hall _ H).
Qed.

(** X14: the preloaders accept exactly the tokens that, once stripped of
    white space, spell [source-target] for a pair the translation
    handlers accept.  The Hugging Face preloader then loads the
    identifier [get_model_name] gives for that pair; the Bergamot
    preloader downloads for that registry pair. *)
Theorem preloaders_accept_the_handlers_pairs :
  (forall pair model_name : string,
      HuggingFace.preload_target pair = Some model_name <->
      exists source_lang target_lang,
        Py.strip pair = Py.dash source_lang target_lang
        /\ HuggingFace.get_model_name source_lang target_lang = Some model_name)
  /\ (forall pair source_lang target_lang : string,
      preload_target pair = Some (source_lang, target_lang) <->
      Py.strip pair = Py.dash source_lang target_lang
      /\ is_Some (MODEL_REGISTRY !! (source_lang, target_lang))).
Proof.
  split.
  - intros pair model_name. unfold HuggingFace.preload_target. split.
    + intros H. repeat (case_match; simplify_eq).
      eexists _, _. split; [|done].
      by apply (KeyFacts.split_two_join "-").
    + intros (source_lang & target_lang & -> & Hname).
      destruct (listed_codes_plain _ _ _ Hname) as [Hs Ht].
      rewrite KeyFacts.truthy_dash, (KeyFacts.split_dash _ _ Hs Ht), Hname.
      by rewrite (ListingFacts.get_model_name_truthy _ _ _ Hname).
  - intros pair source_lang target_lang. unfold preload_target. split.
    + intros H. repeat (case_match; simplify_eq).
      match goal with
      | Hs : Py.split_once _ _ = Some _ |- _ =>
          destruct (KeyFacts.split_once_join _ _ _ _ Hs) as [-> _]
      end.
      split; [done|].
      match goal with
      | Hb : bool_decide _ = true |- _ => exact (bool_decide_eq_true_1 _ Hb)
      end.
    + intros [-> Hreg].
      rewrite KeyFacts.truthy_dash, KeyFacts.contains_dash. cbn [andb].
      rewrite (KeyFacts.split_once_dash _ _ (registry_sources_plain _ _ Hreg)).
      by rewrite bool_decide_eq_true_2.
Qed.

End Runs.

End BergamotRunFacts.

(** ** The further properties on concrete runs *)

Module ExtraScenarios.

Import Stub.

Lemma languages_listing_witness :
  {| HuggingFace.source := "en"; HuggingFace.target := "ta";
     HuggingFace.model := "Helsinki-NLP/opus-mt-en-mul" |}
  ∈ HuggingFace.get_languages.
Proof.
  apply (proj1 (ListingFacts.languages_listing_is_the_resolver
                  "en" "ta" "Helsinki-NLP/opus-mt-en-mul")).
  vm_compute. reflexivity.
Defined.

Lemma unsupported_pair_witness :
  snd (HuggingFace.translate
         {| HuggingFace.text := "hello"; HuggingFace.source_lang := "xx";
            HuggingFace.target_lang := "yy" |} (Stub.huggingface_cold 0))
  = Stub.huggingface_cold 0
  /\ snd (HuggingFace.translate_batch_endpoint
            {| HuggingFace.texts := ["a"]; HuggingFace.batch_source_lang := "xx";
               HuggingFace.batch_target_lang := "yy" |} (Stub.huggingface_cold 0))
     = Stub.huggingface_cold 0.
Proof.
  destruct (HuggingFaceRunFacts.unsupported_pair_is_the_only_400
              (T := Stub.transformers)) as [Hone Hbatch].
  split.
  - apply (Hone {| HuggingFace.text := "hello"; HuggingFace.source_lang := "xx";
                   HuggingFace.target_lang := "yy" |} (Stub.huggingface_cold 0)).
    vm_compute. reflexivity.
  - apply (Hbatch {| HuggingFace.texts := ["a"]; HuggingFace.batch_source_lang := "xx";
                     HuggingFace.batch_target_lang := "yy" |} (Stub.huggingface_cold 0)).
    vm_compute. reflexivity.
Defined.

Lemma translate_outcomes_witness :
  fst (HuggingFace.translate
         {| HuggingFace.text := "hello"; HuggingFace.source_lang := "en";
            HuggingFace.target_lang := "es" |} (Stub.huggingface_cold 1))
  = HTTPException 500 "Translation failed: connection error"
  /\ fst (HuggingFace.translate (T := Doubles.out_of_memory)
            {| HuggingFace.text := "hello"; HuggingFace.source_lang := "en";
               HuggingFace.target_lang := "es" |}
            (HuggingFace.initial (T := Doubles.out_of_memory) 0))
     = HTTPException 500 "Translation failed: out of memory"
  /\ fst (HuggingFace.translate
            {| HuggingFace.text := "hello"; HuggingFace.source_lang := "en";
               HuggingFace.target_lang := "es" |} (Stub.huggingface_cold 0))
     = Response {| HuggingFace.translated_text := "model:Helsinki-NLP/opus-mt-en-es>hello";
                   HuggingFace.resp_source_lang := "en";
                   HuggingFace.resp_target_lang := "es";
                   HuggingFace.resp_model := "Helsinki-NLP/opus-mt-en-es" |}.
Proof.
  split; [|split].
  - destruct (HuggingFaceRunFacts.translate_outcomes (T := Stub.transformers)
                {| HuggingFace.text := "hello"; HuggingFace.source_lang := "en";
                   HuggingFace.target_lang := "es" |}
                "Helsinki-NLP/opus-mt-en-es" (Stub.huggingface_cold 1))
      as (Hfail & _ & _); [vm_compute; reflexivity|].
    rewrite (Hfail "connection error"
               (snd (HuggingFace.load_model "Helsinki-NLP/opus-mt-en-es"
                       (Stub.huggingface_cold 1))));
      vm_compute; reflexivity.
  - destruct (HuggingFaceRunFacts.translate_outcomes (T := Doubles.out_of_memory)
                {| HuggingFace.text := "hello"; HuggingFace.source_lang := "en";
                   HuggingFace.target_lang := "es" |}
                "Helsinki-NLP/opus-mt-en-es"
                (HuggingFace.initial (T := Doubles.out_of_memory) 0))
      as (_ & Hinfer & _); [vm_compute; reflexivity|].
    destruct (Hinfer "model:Helsinki-NLP/opus-mt-en-es"
                "tokenizer:Helsinki-NLP/opus-mt-en-es"
                (snd (HuggingFace.load_model (T := Doubles.out_of_memory)
                        "Helsinki-NLP/opus-mt-en-es"
                        (HuggingFace.initial (T := Doubles.out_of_memory) 0)))
                "out of memory") as [Hrun _];
      [vm_compute; reflexivity | vm_compute; reflexivity |].
    rewrite Hrun. reflexivity.
  - destruct (HuggingFaceRunFacts.translate_outcomes (T := Stub.transformers)
                {| HuggingFace.text := "hello"; HuggingFace.source_lang := "en";
                   HuggingFace.target_lang := "es" |}
                "Helsinki-NLP/opus-mt-en-es" (Stub.huggingface_cold 0))
      as (_ & _ & Hok); [vm_compute; reflexivity|].
    destruct (Hok "model:Helsinki-NLP/opus-mt-en-es"
                "tokenizer:Helsinki-NLP/opus-mt-en-es"
                (snd (HuggingFace.load_model "Helsinki-NLP/opus-mt-en-es"
                        (Stub.huggingface_cold 0)))
                "model:Helsinki-NLP/opus-mt-en-es>hello") as [Hrun _];
      [vm_compute; reflexivity | vm_compute; reflexivity |].
    rewrite Hrun. reflexivity.
Defined.

Lemma translate_batch_endpoint_outcomes_witness :
  fst (HuggingFace.translate_batch_endpoint
         {| HuggingFace.texts := ["a"; "b"]; HuggingFace.batch_source_lang := "en";
            HuggingFace.batch_target_lang := "es" |} (Stub.huggingface_cold 1))
  = HTTPException 500 "Batch translation failed: connection error"
  /\ fst (HuggingFace.translate_batch_endpoint (T := Doubles.out_of_memory)
            {| HuggingFace.texts := ["a"; "b"]; HuggingFace.batch_source_lang := "en";
               HuggingFace.batch_target_lang := "es" |}
            (HuggingFace.initial (T := Doubles.out_of_memory) 0))
     = HTTPException 500 "Batch translation failed: out of memory"
  /\ fst (HuggingFace.translate_batch_endpoint
            {| HuggingFace.texts := ["a"; "b"]; HuggingFace.batch_source_lang := "en";
               HuggingFace.batch_target_lang := "es" |} (Stub.huggingface_cold 0))
     = Response {| HuggingFace.translations :=
                     ["model:Helsinki-NLP/opus-mt-en-es>a";
                      "model:Helsinki-NLP/opus-mt-en-es>b"];
                   HuggingFace.bresp_source_lang := "en";
                   HuggingFace.bresp_target_lang := "es";
                   HuggingFace.bresp_model := "Helsinki-NLP/opus-mt-en-es";
                   HuggingFace.count := 2 |}.
Proof.
  split; [|split].
  - destruct (HuggingFaceRunFacts.translate_batch_endpoint_outcomes
                (T := Stub.transformers)
                {| HuggingFace.texts := ["a"; "b"];
                   HuggingFace.batch_source_lang := "en";
                   HuggingFace.batch_target_lang := "es" |}
                "Helsinki-NLP/opus-mt-en-es" (Stub.huggingface_cold 1))
      as (Hfail & _ & _); [vm_compute; reflexivity|].
    rewrite (Hfail "connection error"
               (snd (HuggingFace.load_model "Helsinki-NLP/opus-mt-en-es"
                       (Stub.huggingface_cold 1))));
      vm_compute; reflexivity.
  - destruct (HuggingFaceRunFacts.translate_batch_endpoint_outcomes
                (T := Doubles.out_of_memory)
                {| HuggingFace.texts := ["a"; "b"];
                   HuggingFace.batch_source_lang := "en";
                   HuggingFace.batch_target_lang := "es" |}
                "Helsinki-NLP/opus-mt-en-es"
                (HuggingFace.initial (T := Doubles.out_of_memory) 0))
      as (_ & Hinfer & _); [vm_compute; reflexivity|].
    destruct (Hinfer "model:Helsinki-NLP/opus-mt-en-es"
                "tokenizer:Helsinki-NLP/opus-mt-en-es"
                (snd (HuggingFace.load_model (T := Doubles.out_of_memory)
                        "Helsinki-NLP/opus-mt-en-es"
                        (HuggingFace.initial (T := Doubles.out_of_memory) 0)))
                "out of memory") as [Hrun _];
      [vm_compute; reflexivity | vm_compute; reflexivity |].
    rewrite Hrun. reflexivity.
  - destruct (HuggingFaceRunFacts.translate_batch_endpoint_outcomes
                (T := Stub.transformers)
                {| HuggingFace.texts := ["a"; "b"];
                   HuggingFace.batch_source_lang := "en";
                   HuggingFace.batch_target_lang := "es" |}
                "Helsinki-NLP/opus-mt-en-es" (Stub.huggingface_cold 0))
      as (_ & _ & Hok); [vm_compute; reflexivity|].
    destruct (Hok "model:Helsinki-NLP/opus-mt-en-es"
                "tokenizer:Helsinki-NLP/opus-mt-en-es"
                (snd (HuggingFace.load_model "Helsinki-NLP/opus-mt-en-es"
                        (Stub.huggingface_cold 0)))
                ["model:Helsinki-NLP/opus-mt-en-es>a";
                 "model:Helsinki-NLP/opus-mt-en-es>b"]) as [Hrun _];
      [vm_compute; reflexivity | vm_compute; reflexivity |].
    rewrite Hrun. reflexivity.
Defined.


(** A request for Tamil, then one for Telugu: both use the multilingual
    model, which is loaded once. *)
Lemma answered_model_witness :
  let first := {| HuggingFace.text := "hello"; HuggingFace.source_lang := "en";
                  HuggingFace.target_lang := "ta" |} in
  let later := {| HuggingFace.text := "hello"; HuggingFace.source_lang := "en";
                  HuggingFace.target_lang := "te" |} in
  let s' := snd (HuggingFace.translate first (Stub.huggingface_cold 0)) in
  HuggingFace.loaded_models (snd (HuggingFace.translate later s'))
  = HuggingFace.loaded_models s'
  /\ HuggingFace.world (snd (HuggingFace.translate later s')) = HuggingFace.world s'
  /\ HuggingFace.load_count "Helsinki-NLP/opus-mt-en-mul"
       (HuggingFace.trace (snd (HuggingFace.translate later s')))
     = HuggingFace.load_count "Helsinki-NLP/opus-mt-en-mul" (HuggingFace.trace s').
Proof.
  apply (HuggingFaceRunFacts.answered_model_is_not_loaded_again
           (T := Stub.transformers)
           {| HuggingFace.text := "hello"; HuggingFace.source_lang := "en";
              HuggingFace.target_lang := "ta" |}
           {| HuggingFace.text := "hello"; HuggingFace.source_lang := "en";
              HuggingFace.target_lang := "te" |}
           {| HuggingFace.translated_text := "model:Helsinki-NLP/opus-mt-en-mul>hello";
              HuggingFace.resp_source_lang := "en";
              HuggingFace.resp_target_lang := "ta";
              HuggingFace.resp_model := "Helsinki-NLP/opus-mt-en-mul" |}
           (Stub.huggingface_cold 0));
    vm_compute; reflexivity.
Defined.

Lemma readiness_witness :
  let s := snd (HuggingFace.readiness (Stub.huggingface_cold 0)) in
  (0 < size (HuggingFace.loaded_models s))%nat
  /\ HuggingFace.readiness
       (HuggingFace.run
          [HuggingFace.OpTranslate
             {| HuggingFace.text := "hello"; HuggingFace.source_lang := "en";
                HuggingFace.target_lang := "es" |}; HuggingFace.OpHealth] s)
     = (Response "ready",
        HuggingFace.run
          [HuggingFace.OpTranslate
             {| HuggingFace.text := "hello"; HuggingFace.source_lang := "en";
                HuggingFace.target_lang := "es" |}; HuggingFace.OpHealth] s)
  /\ HuggingFace.loaded_models (snd (HuggingFace.readiness (Stub.huggingface_cold 1)))
     = ∅.
Proof.
  destruct (HuggingFaceRunFacts.readiness_once_ready_stays_ready
              (T := Stub.transformers) (Stub.huggingface_cold 0))
    as (_ & Hready & _).
  destruct (Hready ltac:(vm_compute; reflexivity)) as [Hpos Hstays].
  destruct (HuggingFaceRunFacts.readiness_once_ready_stays_ready
              (T := Stub.transformers) (Stub.huggingface_cold 1))
    as (_ & _ & Hcold).
  split; [exact Hpos | split; [apply Hstays | apply Hcold; vm_compute; reflexivity]].
Defined.

Lemma runs_publish_witness :
  let s := HuggingFace.run
             [HuggingFace.OpLifespan ["en-ta"; "en-te"];
              HuggingFace.OpTranslate
                {| HuggingFace.text := "hello"; HuggingFace.source_lang := "en";
                   HuggingFace.target_lang := "ta" |}]
             (Stub.huggingface_cold 0) in
  HuggingFace.Publish "Helsinki-NLP/opus-mt-en-mul" ∈ HuggingFace.trace s
  /\ HuggingFaceRuns.registry_identifier "Helsinki-NLP/opus-mt-en-mul".
Proof.
  destruct (HuggingFaceRunFacts.runs_publish_each_registry_model_once
              (T := Stub.transformers)
              [HuggingFace.OpLifespan ["en-ta"; "en-te"];
               HuggingFace.OpTranslate
                 {| HuggingFace.text := "hello"; HuggingFace.source_lang := "en";
                    HuggingFace.target_lang := "ta" |}]
              0 "Helsinki-NLP/opus-mt-en-mul") as (_ & Hiff & Hreg & _).
  split.
  - apply (proj1 Hiff). vm_compute. eauto.
  - apply Hreg. vm_compute. eauto.
Defined.

Lemma bergamot_handlers_witness :
  (exists response,
      fst (Bergamot.translate
             {| Bergamot.text := "hello"; Bergamot.source_lang := "en";
                Bergamot.target_lang := "es" |} (Stub.bergamot_cold 0))
      = Response response)
  /\ Bergamot.translate_batch
       {| Bergamot.texts := ["a"]; Bergamot.batch_source_lang := "es";
          Bergamot.batch_target_lang := "fr" |} (Stub.bergamot_cold 0)
     = (HTTPException 400 (Bergamot.unsupported_detail "es" "fr"), Stub.bergamot_cold 0).
Proof.
  destruct (BergamotRunFacts.bergamot_handlers_answer_listed_pairs
              (E := Stub.environment)) as [Hone Hbatch].
  split.
  - apply (proj1 (Hone {| Bergamot.text := "hello"; Bergamot.source_lang := "en";
                          Bergamot.target_lang := "es" |} (Stub.bergamot_cold 0))).
    apply list_elem_of_In. vm_compute. tauto.
  - apply (Hbatch {| Bergamot.texts := ["a"]; Bergamot.batch_source_lang := "es";
                     Bergamot.batch_target_lang := "fr" |} (Stub.bergamot_cold 0)).
    intros Hin. apply list_elem_of_In in Hin. vm_compute in Hin.
    repeat (destruct Hin as [Hin | Hin]; [discriminate Hin|]). exact Hin.
Defined.


Lemma runs_keep_translators_witness :
  let s := Bergamot.run
             [Bergamot.OpLifespan ["en-es"];
              Bergamot.OpTranslate
                {| Bergamot.text := "hello"; Bergamot.source_lang := "en";
                   Bergamot.target_lang := "de" |}]
             (Stub.bergamot_cold 0) in
  is_Some (Bergamot.MODEL_REGISTRY !! ("en", "de"))
  /\ fst (Bergamot.get_translator "de" "en" s)
     = Ok {| Bergamot.source := "de"; Bergamot.target := "en";
             Bergamot.loaded := true |}.
Proof.
  destruct (BergamotRunFacts.runs_keep_translators_within_registry
              (E := Stub.environment)
              [Bergamot.OpLifespan ["en-es"];
               Bergamot.OpTranslate
                 {| Bergamot.text := "hello"; Bergamot.source_lang := "en";
                    Bergamot.target_lang := "de" |}]
              ∅ 0) as (Hkeys & _ & Hget).
  split.
  - apply (Hkeys "en-de" {| Bergamot.source := "en"; Bergamot.target := "de";
                            Bergamot.loaded := true |}).
    vm_compute. reflexivity.
  - apply Hget. vm_compute. eauto.
Defined.

Lemma download_idempotent_witness :
  let s' := snd (Bergamot.download_model "en" "de" (Stub.bergamot_cold 0)) in
  fst (Bergamot.download_model "en" "de" s') = Ok (Some "/app/models/en-de")
  /\ Bergamot.files (snd (Bergamot.download_model "en" "de" s')) = Bergamot.files s'
  /\ Bergamot.world (snd (Bergamot.download_model "en" "de" s')) = Bergamot.world s'.
Proof.
  cbv zeta.
  rewrite (BergamotRunFacts.download_model_is_idempotent (E := Stub.environment)
             "en" "de" "/app/models/en-de" (Stub.bergamot_cold 0)
             (snd (Bergamot.download_model "en" "de" (Stub.bergamot_cold 0))));
    [|vm_compute; reflexivity].
  repeat split.
Defined.


Lemma preloaders_witness :
  HuggingFace.preload_target " en-ta " = Some "Helsinki-NLP/opus-mt-en-mul"
  /\ Bergamot.preload_target "en-es " = Some ("en", "es").
Proof.
  destruct BergamotRunFacts.preloaders_accept_the_handlers_pairs as [Hhf Hbergamot].
  split.
  - apply Hhf. exists "en", "ta". split; vm_compute; reflexivity.
  - apply Hbergamot. split; [vm_compute; reflexivity | vm_compute; eauto].
Defined.

Lemma pair_key_witness :
  Py.split_once "-" (Py.dash "en" "zh-CN") = Some ("en", "zh-CN")
  /\ Py.split "-" (Py.dash "en" "es") = ["en"; "es"].
Proof.
  split.
  - apply (KeyFacts.pair_key_round_trip "en" "zh-CN"). reflexivity.
  - apply (KeyFacts.pair_key_round_trip "en" "es"); reflexivity.
Defined.

End ExtraScenarios.
